(** * Quantitative_Finance: the QuantPM dashboard and the engine contract

    A shallow embedding of [src/JavaScript/quant-frontend/src/App.jsx]:
    the React component's state, its event handlers ([handleCSVUpload],
    [handleSimulation], the Add and Remove buttons of the private
    investments list), the request it posts to [/simulate] and what it
    renders of the response.

    JavaScript values are an inductive type; objects are association lists
    in property-insertion order. JavaScript numbers are modelled by their
    exact decimal value (a rational) together with [NaN] and the two
    infinities: the rounding of a decimal literal to binary64 (and with it
    overflow to an infinity and underflow to zero) and the sign of zero
    are not modelled. Strings are byte strings, so the white space
    recognised by [trim], [parseFloat] and [parseInt] is the ASCII part of
    the ECMAScript set.

    The engine behind [/simulate] is not among the sources; its
    aggregator and orchestrator are modelled from the specification in
    the module [Engine]. *)

From Stdlib Require Import String Ascii List Bool ZArith QArith Qabs Qminmax.
From Stdlib Require Import Permutation Lia.
From Stdlib Require DecimalString DecimalNat DecimalFacts.
Import ListNotations.

Local Open Scope string_scope.
Local Open Scope list_scope.

(** ** JavaScript numbers *)

Module JsNumber.

Inductive JsNum : Type :=
| NaN
| Infinity (negative : bool)
| Num (q : Q).

Definition of_Z (z : Z) : JsNum := Num (inject_Z z).

(** [x > 0], [x >= 0], [x < 0] as JavaScript evaluates them: every
    comparison with [NaN] is false. *)
Definition gt0 (x : JsNum) : bool :=
  match x with
  | NaN => false
  | Infinity neg => negb neg
  | Num q => (0 <? Qnum q)%Z
  end.

Definition ge0 (x : JsNum) : bool :=
  match x with
  | NaN => false
  | Infinity neg => negb neg
  | Num q => (0 <=? Qnum q)%Z
  end.

Definition is_zero (x : JsNum) : bool :=
  match x with
  | Num q => (Qnum q =? 0)%Z
  | _ => false
  end.

Definition is_nan (x : JsNum) : bool :=
  match x with NaN => true | _ => false end.

(** IEEE addition on the modelled values. *)
Definition add (x y : JsNum) : JsNum :=
  match x, y with
  | NaN, _ | _, NaN => NaN
  | Infinity a, Infinity b => if Bool.eqb a b then Infinity a else NaN
  | Infinity a, Num _ | Num _, Infinity a => Infinity a
  | Num p, Num q => Num (Qred (p + q))
  end.

(** [|x - c| <= tol] for a finite [x]; false for [NaN] and infinities. *)
Definition within (tol c : Q) (x : JsNum) : bool :=
  match x with
  | Num q => Qle_bool (Qabs (q - c)) tol
  | _ => false
  end.

End JsNumber.
Export JsNumber.

(** ** String built-ins *)

Module JsString.

(** The ASCII members of ECMAScript's WhiteSpace and LineTerminator:
    TAB, LF, VT, FF, CR and SP. *)
Definition is_space (c : ascii) : bool :=
  let n := nat_of_ascii c in
  ((9 <=? n) && (n <=? 13))%nat || (n =? 32)%nat.

Fixpoint trimStart (s : string) : string :=
  match s with
  | String c s' => if is_space c then trimStart s' else s
  | EmptyString => EmptyString
  end.

(** [trimEnd] drops a character when it is white space and everything
    after it has been dropped. *)
Fixpoint trimEnd (s : string) : string :=
  match s with
  | EmptyString => EmptyString
  | String c s' =>
      match trimEnd s' with
      | EmptyString => if is_space c then EmptyString else String c EmptyString
      | t => String c t
      end
  end.

Definition trim (s : string) : string := trimEnd (trimStart s).

(** [s.split(sep)] for a one-character separator: never empty, the
    empty string splits into one empty piece. *)
Fixpoint split (sep : ascii) (s : string) : list string :=
  match s with
  | EmptyString => [EmptyString]
  | String c s' =>
      if Ascii.eqb c sep then EmptyString :: split sep s'
      else match split sep s' with
           | [] => [String c EmptyString]
           | piece :: rest => String c piece :: rest
           end
  end.

Definition digit (c : ascii) : option Z :=
  let n := nat_of_ascii c in
  if ((48 <=? n) && (n <=? 57))%nat then Some (Z.of_nat (n - 48)) else None.

Definition hex_digit (c : ascii) : option Z :=
  let n := nat_of_ascii c in
  if ((48 <=? n) && (n <=? 57))%nat then Some (Z.of_nat (n - 48))
  else if ((97 <=? n) && (n <=? 102))%nat then Some (Z.of_nat (n - 87))
  else if ((65 <=? n) && (n <=? 70))%nat then Some (Z.of_nat (n - 55))
  else None.

(** The longest prefix of digits, as the list of their values, and the
    rest of the string. *)
Fixpoint span_digits (dig : ascii -> option Z) (s : string) : list Z * string :=
  match s with
  | String c s' =>
      match dig c with
      | Some d => let (ds, rest) := span_digits dig s' in (d :: ds, rest)
      | None => ([], s)
      end
  | EmptyString => ([], EmptyString)
  end.

Definition digits_value (radix : Z) (ds : list Z) : Z :=
  fold_left (fun acc d => acc * radix + d)%Z ds 0%Z.

(** An optional sign: [(negative, rest)]. *)
Definition read_sign (s : string) : bool * string :=
  match s with
  | String "-" s' => (true, s')
  | String "+" s' => (false, s')
  | _ => (false, s)
  end.

Definition starts_with (p s : string) : bool := String.prefix p s.

(** [m * 10^e] as a rational. *)
Definition scale10 (m e : Z) : Q :=
  if (0 <=? e)%Z then inject_Z (m * 10 ^ e)
  else Qred (Qmake m (Z.to_pos (10 ^ (- e)))).

(** The exponent part [e[+-]digits] when it is complete, else no
    exponent is read. *)
Definition read_exponent (s : string) : Z :=
  match s with
  | String c s' =>
      if Ascii.eqb c "e" || Ascii.eqb c "E" then
        let (neg, s'') := read_sign s' in
        match fst (span_digits digit s'') with
        | [] => 0%Z
        | ds => if neg then (- digits_value 10 ds)%Z else digits_value 10 ds
        end
      else 0%Z
  | EmptyString => 0%Z
  end.

(** [parseFloat(s)]: leading white space is skipped and the longest
    prefix that is a StrDecimalLiteral is read; [NaN] when there is
    none. *)
Definition parseFloat (s : string) : JsNum :=
  let (neg, body) := read_sign (trimStart s) in
  if starts_with "Infinity" body then Infinity neg
  else
    let (ip, r1) := span_digits digit body in
    let (fp, r2) :=
      match r1 with
      | String "." r => span_digits digit r
      | _ => ([], r1)
      end in
    match ip, fp with
    | [], [] => NaN
    | _, _ =>
        let m := digits_value 10 (ip ++ fp) in
        let e := (read_exponent r2 - Z.of_nat (List.length fp))%Z in
        Num (scale10 (if neg then - m else m) e)
    end.

(** [parseFloat(undefined)]: the argument is converted to the string
    ["undefined"], which has no numeric prefix. *)
Definition parseFloat_opt (s : option string) : JsNum :=
  match s with
  | Some s => parseFloat s
  | None => NaN
  end.

(** [parseInt(s)] without a radix: radix 16 after a [0x] prefix, else
    radix 10; [NaN] when no digit follows. *)
Definition parseInt (s : string) : JsNum :=
  let (neg, body) := read_sign (trimStart s) in
  let (radix, body') :=
    match body with
    | String "0" (String c r) =>
        if Ascii.eqb c "x" || Ascii.eqb c "X" then (16%Z, r) else (10%Z, body)
    | _ => (10%Z, body)
    end in
  let dig := if (radix =? 16)%Z then hex_digit else digit in
  match fst (span_digits dig body') with
  | [] => NaN
  | ds => let n := digits_value radix ds in of_Z (if neg then - n else n)
  end.

End JsString.
Export JsString.

(** ** JavaScript values *)

Set Warnings "-register-all".

Module JsValues.

Inductive JsValue : Type :=
| JUndefined
| JNull
| JBool (b : bool)
| JNumber (n : JsNum)
| JString (s : string)
| JArray (items : list JsValue)
| JObject (fields : list (string * JsValue)).

Definition Fields : Type := list (string * JsValue).

(** ToBoolean: [undefined], [null], [false], [0], [NaN] and the empty string are
    falsy, every array and object is truthy. *)
Definition truthy (v : JsValue) : bool :=
  match v with
  | JUndefined | JNull => false
  | JBool b => b
  | JNumber n => negb (is_zero n || is_nan n)
  | JString s => negb (String.eqb s EmptyString)
  | JArray _ | JObject _ => true
  end.

(** [v !== null], and [v !== s] for the empty string [s]. *)
Definition is_null (v : JsValue) : bool :=
  match v with JNull => true | _ => false end.

Definition is_empty_string (v : JsValue) : bool :=
  match v with JString s => String.eqb s EmptyString | _ => false end.

(** [a || b] *)
Definition js_or (a b : JsValue) : JsValue := if truthy a then a else b.

Fixpoint lookup (k : string) (fs : Fields) : option JsValue :=
  match fs with
  | [] => None
  | (k', v) :: fs' => if String.eqb k' k then Some v else lookup k fs'
  end.

Definition has_key (k : string) (fs : Fields) : bool :=
  match lookup k fs with Some _ => true | None => false end.

(** [o.k] on an object: [undefined] for a missing property. *)
Definition get (k : string) (fs : Fields) : JsValue :=
  match lookup k fs with Some v => v | None => JUndefined end.

Fixpoint replace (k : string) (v : JsValue) (fs : Fields) : Fields :=
  match fs with
  | [] => []
  | (k', v') :: fs' =>
      if String.eqb k' k then (k', v) :: fs' else (k', v') :: replace k v fs'
  end.

(** [o[k] = v] on a plain object: an existing property keeps its place,
    a new one is added last (the engine lists integer-like keys first
    when it enumerates; that reordering is not modelled). Assigning to
    ["__proto__"] goes to the accessor of [Object.prototype] and creates
    no own property. *)
Definition assign (k : string) (v : JsValue) (fs : Fields) : Fields :=
  if String.eqb k "__proto__" then fs
  else if has_key k fs then replace k v fs
  else fs ++ [(k, v)].

(** [Object.values(o)] *)
Definition Object_values (fs : Fields) : list JsValue := map snd fs.

(** [const { k, ...rest } = o]: the own properties of [o] other than
    [k], in their order. *)
Definition omit (k : string) (fs : Fields) : Fields :=
  filter (fun kv => negb (String.eqb (fst kv) k)) fs.

(** [xs.filter((x, i) => keep(x, i))]: the callback sees each element
    with its index, counted from 0. *)
Fixpoint filter_from {A : Type} (keep : A -> nat -> bool) (i : nat)
    (xs : list A) : list A :=
  match xs with
  | [] => []
  | x :: xs' =>
      if keep x i then x :: filter_from keep (S i) xs'
      else filter_from keep (S i) xs'
  end.

Definition Array_filter {A : Type} (keep : A -> nat -> bool) (xs : list A)
  : list A := filter_from keep 0 xs.

(** [Array(n).fill(v)] *)
Definition Array_fill (n : nat) (v : JsValue) : JsValue := JArray (repeat v n).

End JsValues.
Export JsValues.

(** ** The component state and a monad for its handlers *)

Module App.

(** The [useState] cells of [App]. *)
Record AppState : Type := mkState {
  initialCapital : string;
  publicWeightsInput : string;
  returnsData : JsValue;
  csvFilename : string;
  privateCommitment : string;
  privateStartMonth : string;
  privateInvestments : list JsValue;
  result : JsValue;
  loading : bool
}.

Definition initial_state : AppState :=
  {| initialCapital := "100000";
     publicWeightsInput := "SPY:0.6, TLT:0.4";
     returnsData := JNull;
     csvFilename := EmptyString;
     privateCommitment := EmptyString;
     privateStartMonth := EmptyString;
     privateInvestments := [];
     result := JNull;
     loading := false |}.

Definition setInitialCapital (v : string) (st : AppState) : AppState :=
  mkState v (publicWeightsInput st) (returnsData st) (csvFilename st)
    (privateCommitment st) (privateStartMonth st) (privateInvestments st)
    (result st) (loading st).

Definition setPublicWeightsInput (v : string) (st : AppState) : AppState :=
  mkState (initialCapital st) v (returnsData st) (csvFilename st)
    (privateCommitment st) (privateStartMonth st) (privateInvestments st)
    (result st) (loading st).

Definition setReturnsData (v : JsValue) (st : AppState) : AppState :=
  mkState (initialCapital st) (publicWeightsInput st) v (csvFilename st)
    (privateCommitment st) (privateStartMonth st) (privateInvestments st)
    (result st) (loading st).

Definition setCsvFilename (v : string) (st : AppState) : AppState :=
  mkState (initialCapital st) (publicWeightsInput st) (returnsData st) v
    (privateCommitment st) (privateStartMonth st) (privateInvestments st)
    (result st) (loading st).

Definition setPrivateCommitment (v : string) (st : AppState) : AppState :=
  mkState (initialCapital st) (publicWeightsInput st) (returnsData st)
    (csvFilename st) v (privateStartMonth st) (privateInvestments st)
    (result st) (loading st).

Definition setPrivateStartMonth (v : string) (st : AppState) : AppState :=
  mkState (initialCapital st) (publicWeightsInput st) (returnsData st)
    (csvFilename st) (privateCommitment st) v (privateInvestments st)
    (result st) (loading st).

Definition setPrivateInvestments (v : list JsValue) (st : AppState) : AppState :=
  mkState (initialCapital st) (publicWeightsInput st) (returnsData st)
    (csvFilename st) (privateCommitment st) (privateStartMonth st) v
    (result st) (loading st).

Definition setResult (v : JsValue) (st : AppState) : AppState :=
  mkState (initialCapital st) (publicWeightsInput st) (returnsData st)
    (csvFilename st) (privateCommitment st) (privateStartMonth st)
    (privateInvestments st) v (loading st).

Definition setLoading (v : bool) (st : AppState) : AppState :=
  mkState (initialCapital st) (publicWeightsInput st) (returnsData st)
    (csvFilename st) (privateCommitment st) (privateStartMonth st)
    (privateInvestments st) (result st) v.

(** What a handler can throw. *)
Inductive Exn : Type :=
| AxiosError (message : string)
| TypeError (message : string).

(** What a handler acts on: the state cells, the requests posted, and
    the console and alert output. *)
Record World : Type := mkWorld {
  store : AppState;
  posted : list (string * JsValue);
  console : list string;
  alerts : list string
}.

Definition fresh_world (st : AppState) : World := mkWorld st [] [] [].

(** State with exceptions; the state written before a throw stays
    written. *)
Definition M (A : Type) : Type := World -> (Exn + A) * World.

Definition ret {A : Type} (a : A) : M A := fun w => (inr a, w).

Definition bind {A B : Type} (c : M A) (k : A -> M B) : M B :=
  fun w =>
    match c w with
    | (inr a, w') => k a w'
    | (inl e, w') => (inl e, w')
    end.

Definition raise {A : Type} (e : Exn) : M A := fun w => (inl e, w).

(** [try { body } catch (error) { handler(error) }] *)
Definition try_catch {A : Type} (body : M A) (handler : Exn -> M A) : M A :=
  fun w =>
    match body w with
    | (inr a, w') => (inr a, w')
    | (inl e, w') => handler e w'
    end.

Definition update (f : AppState -> AppState) : M unit :=
  fun w => (inr tt, mkWorld (f (store w)) (posted w) (console w) (alerts w)).

Definition console_error (msg : string) : M unit :=
  fun w => (inr tt, mkWorld (store w) (posted w) (console w ++ [msg]) (alerts w)).

Definition alert (msg : string) : M unit :=
  fun w => (inr tt, mkWorld (store w) (posted w) (console w) (alerts w ++ [msg])).

(** [v.k]: reading a property of [undefined] or [null] throws. Only
    [data] and [result] are read this way, which no primitive or array
    has. *)
Definition prop (k : string) (v : JsValue) : M JsValue :=
  match v with
  | JUndefined | JNull => raise (TypeError k)
  | JObject fs => ret (get k fs)
  | _ => ret JUndefined
  end.

(** [xs.forEach(f)] where the callback mutates one local object: the
    object is threaded through the calls. *)
Fixpoint forEach {A S : Type} (xs : list A) (f : A -> S -> M S) (local : S)
  : M S :=
  match xs with
  | [] => ret local
  | x :: xs' => bind (f x local) (fun local' => forEach xs' f local')
  end.

End App.
Export App.

Declare Scope js_scope.
Delimit Scope js_scope with js.
Notation "x <- c ;; k" := (bind c (fun x => k))
  (at level 61, c at next level, right associativity) : js_scope.
Notation "c ;; k" := (bind c (fun _ => k))
  (at level 61, right associativity) : js_scope.

Module Handlers.

Local Open Scope js_scope.

(** *** handleCSVUpload *)

(** The file chosen in the input, with the rows [Papa.parse] hands to
    [complete] as [results.data] under [header: true] and
    [dynamicTyping: true]: one object per record. *)
Record CsvFile : Type := mkCsvFile {
  file_name : string;
  parsed_data : list Fields
}.

(** The predicate of [results.data.filter]: every value of the row is
    [!== null] and [!==] the empty string. *)
Definition row_is_clean (row : Fields) : bool :=
  forallb (fun val => negb (is_null val) && negb (is_empty_string val))
          (Object_values row).

(** [file] is [e.target.files[0]]. The [complete] callback of
    [Papa.parse] is run at once: the time between the choice of the file
    and the end of the parse is not modelled. *)
Definition handleCSVUpload (file : option CsvFile) (st : AppState) : AppState :=
  match file with
  | None => st
  | Some f =>
      let st1 := setCsvFilename (file_name f) st in
      let cleaned := filter row_is_clean (parsed_data f) in
      let formatted := map (fun row => omit "Date" row) cleaned in
      setReturnsData (JArray (map JObject formatted)) st1
  end.

(** *** handleSimulation *)

Definition simulate_url : string := "http://localhost:5000/simulate".

(** The body of the [forEach] callback over the weight pairs. *)
Definition add_weight (pair : string) (weights : Fields) : M Fields :=
  match split ":" (trim pair) with
  | symbol :: rest =>
      ret (assign (trim symbol) (JNumber (parseFloat_opt (hd_error rest))) weights)
  | [] => raise (TypeError "trim")
  end.

Definition default_returns : JsValue :=
  JObject [ ("SPY", Array_fill 120 (JNumber (Num (1 # 100))));
            ("TLT", Array_fill 120 (JNumber (Num (5 # 1000)))) ].

(** The object literal passed to [axios.post]; [st] is the state the
    handler closed over. *)
Definition request_body (st : AppState) (weights : Fields) : JsValue :=
  JObject [ ("initial_capital", JNumber (parseFloat (initialCapital st)));
            ("public_weights", JObject weights);
            ("private_commitments", JArray (privateInvestments st));
            ("returns_data", js_or (returnsData st) default_returns) ].

Section Backend.

(** The server behind [axios.post]: a rejection, or the response
    body. *)
Variable backend : string -> JsValue -> Exn + JsValue.

Definition axios_post (url : string) (body : JsValue) : M JsValue :=
  fun w =>
    let w' := mkWorld (store w) (posted w ++ [(url, body)]) (console w) (alerts w) in
    match backend url body with
    | inl e => (inl e, w')
    | inr data => (inr (JObject [("data", data)]), w')
    end.

Definition handleSimulation (st : AppState) : M unit :=
  update (setLoading true) ;;
  update (setResult JNull) ;;
  try_catch
    (let weightPairs := split "," (publicWeightsInput st) in
     weights <- forEach weightPairs add_weight [] ;;
     response <- axios_post simulate_url (request_body st weights) ;;
     data <- prop "data" response ;;
     res <- prop "result" data ;;
     update (setResult res))
    (fun error =>
       console_error "Error calling backend:" ;;
       alert "Error calling backend. Check terminal/console.") ;;
  update (setLoading false).

(** The world after a click on Run in state [st]. *)
Definition run_simulation (st : AppState) : World :=
  snd (handleSimulation st (fresh_world st)).

End Backend.

(** *** The Add and Remove buttons *)

Definition newInvestment (commitment start_month : string) : JsValue :=
  JObject [ ("commitment", JNumber (parseFloat commitment));
            ("start_month", JNumber (parseInt start_month)) ].

Definition click_add (st : AppState) : AppState :=
  if truthy (JString (privateCommitment st))
     && negb (String.eqb (privateStartMonth st) EmptyString)
  then
    setPrivateStartMonth EmptyString
      (setPrivateCommitment EmptyString
         (setPrivateInvestments
            (privateInvestments st
               ++ [newInvestment (privateCommitment st) (privateStartMonth st)])
            st))
  else st.

Definition click_remove (idx : nat) (st : AppState) : AppState :=
  let updated :=
    Array_filter (fun _ i => negb (Nat.eqb i idx)) (privateInvestments st) in
  setPrivateInvestments updated st.

(** *** Rendering: the [result && (...)] guard of the performance block *)

Definition shows_performance (st : AppState) : bool := truthy (result st).

(** *** Events *)

Inductive Event : Type :=
| ChangeInitialCapital (value : string)
| ChangeCsvFile (file : option CsvFile)
| ChangePublicWeights (value : string)
| ChangePrivateCommitment (value : string)
| ChangePrivateStartMonth (value : string)
| ClickAdd
| ClickRemove (idx : nat)
| ClickRun (backend : string -> JsValue -> Exn + JsValue).

Definition step (st : AppState) (ev : Event) : AppState :=
  match ev with
  | ChangeInitialCapital v => setInitialCapital v st
  | ChangeCsvFile file => handleCSVUpload file st
  | ChangePublicWeights v => setPublicWeightsInput v st
  | ChangePrivateCommitment v => setPrivateCommitment v st
  | ChangePrivateStartMonth v => setPrivateStartMonth v st
  | ClickAdd => click_add st
  | ClickRemove idx => click_remove idx st
  | ClickRun backend =>
      if loading st then st else store (run_simulation backend st)
  end.

Definition run_events (evs : list Event) (st : AppState) : AppState :=
  fold_left step evs st.

(** The requests posted by a click on Run after the events [evs]. *)
Definition requests_after (evs : list Event)
    (backend : string -> JsValue -> Exn + JsValue) : list (string * JsValue) :=
  posted (run_simulation backend (run_events evs initial_state)).

End Handlers.
Export Handlers.

(** ** The simulation engine, from its specification

    The repository holds the dashboard only; the engine that answers
    [/simulate] is described by the specification (sections 4.4, 4.6, 5, 6
    and 7). Its Portfolio Aggregator and Simulation Orchestrator are
    modelled here in exact rational arithmetic. What the specification
    leaves open (the return model, the rebalancing trajectory, the J-curve
    schedule, the metric formulas, the derivation of sub-seeds) is a
    parameter of the section. *)

Module Engine.

Local Open Scope Q_scope.

(** Modelled from the spec: the SimulationState snapshot of section 3,
    absent from the sources: public value, aggregate private NAV, cash
    and "total value = sum of the three". *)
Record SimulationState : Type := mkSimulationState {
  public : Q;
  private : Q;
  cash : Q;
  total : Q
}.

(** Modelled from the spec: step 5 of section 4.4, "Record
    SimulationState{public, private, cash, total}", absent from the
    sources. *)
Definition record_state (pub nav csh : Q) : SimulationState :=
  mkSimulationState pub nav csh (pub + nav + csh).

(** Modelled from the spec: the invariant of section 3 on one state. *)
Definition total_is_sum (s : SimulationState) : Prop :=
  total s = public s + private s + cash s.

(** Modelled from the spec: what the Rebalancing Engine and the Private
    Markets Engine, both absent from the sources, hand to the aggregator
    for one month (section 4.4, steps 1 to 4). *)
Record MonthFlows : Type := mkMonthFlows {
  public_delta : Q;
  nav_delta : Q;
  capital_call : Q;
  distribution : Q
}.

(** Modelled from the spec: the recoverable per-path anomaly of
    section 7, recorded with its month and amount. *)
Inductive Warning : Type :=
| FundingShortfallError (month : nat) (shortfall : Q).

(** Modelled from the spec: one month of the Portfolio Aggregator
    (section 4.4, steps 1 to 5), absent from the sources. The call is
    funded from cash first, the remainder from the public sleeve; what
    neither can fund is a recorded shortfall, the private NAV reflects
    only the funded part, and nothing goes negative (section 7). *)
Definition aggregate_month (t : nat) (prev : SimulationState) (m : MonthFlows)
  : SimulationState * list Warning :=
  let pub1 := public prev + public_delta m in
  let nav1 := private prev + nav_delta m in
  let from_cash := Qmin (Qmax 0 (cash prev)) (capital_call m) in
  let remainder := capital_call m - from_cash in
  let from_public := Qmin (Qmax 0 pub1) remainder in
  let shortfall := remainder - from_public in
  let csh := cash prev - from_cash + distribution m in
  let pub := pub1 - from_public in
  let nav := Qmax 0 (nav1 - shortfall) in
  (record_state pub nav csh,
   if Qle_bool shortfall 0 then [] else [FundingShortfallError t shortfall]).

(** Modelled from the spec: the aggregator over the horizon, one
    recorded state per month. *)
Fixpoint aggregate (t : nat) (prev : SimulationState) (flows : list MonthFlows)
  : list SimulationState * list Warning :=
  match flows with
  | [] => ([], [])
  | m :: rest =>
      let (st, ws) := aggregate_month t prev m in
      let (sts, ws') := aggregate (S t) st rest in
      (st :: sts, ws ++ ws')
  end.

(** Modelled from the spec: [rebalancing_policy], "one of {none,
    periodic(interval), threshold(band)}" (section 6). *)
Inductive RebalancingPolicy : Type :=
| PolicyNone
| PolicyPeriodic (interval : nat)
| PolicyThreshold (band : Q).

(** Modelled from the spec: the request of section 6. *)
Record Request : Type := mkRequest {
  initial_capital : Q;
  public_weights : list (string * Q);
  returns_data : option (list (string * list Q));
  private_commitments : list (Q * nat);
  horizon_months : nat;
  num_paths : nat;
  rebalancing_policy : RebalancingPolicy;
  seed : option Z
}.

(** Modelled from the spec: the fatal errors of section 7 that concern
    the fields modelled here. *)
Inductive ConfigurationError : Type :=
| MalformedWeights
| NonPositiveHorizon.

(** Modelled from the spec: [sum(weights.values())] of section 8. *)
Definition weights_sum (ws : list (string * Q)) : Q :=
  fold_right (fun kv acc => snd kv + acc) 0 ws.

(** Modelled from the spec: weights are non-negative and sum to 1.0
    within 1e-6 (sections 3 and 8). *)
Definition weights_valid (ws : list (string * Q)) : bool :=
  forallb (fun kv => Qle_bool 0 (snd kv)) ws
  && Qle_bool (Qabs (weights_sum ws - 1)) (1 # 1000000).

(** Modelled from the spec: the single validation pass at the boundary
    (sections 7 and 9): malformed weights and a non-positive horizon
    abort the run before any simulation state is created. *)
Definition validate (req : Request) : option ConfigurationError :=
  if negb (weights_valid (public_weights req)) then Some MalformedWeights
  else if Nat.eqb (horizon_months req) 0 then Some NonPositiveHorizon
  else None.

Section Orchestrator.

(** The seedable random source of section 9. *)
Variable Source : Type.
Variable from_seed : Z -> Source.

(** Sub-seed of a path, "derived from a master seed + path index". *)
Variable subseed : Z -> nat -> Z.

(** Return Generator, Rebalancing Engine and Private Markets Engine
    of one path: the monthly flows they produce from the request and
    the path's own source. *)
Variable sleeve_flows : Request -> Source -> list MonthFlows.

(** Metrics Calculator: a pure function of the total-value series. *)
Variable Metrics : Type.
Variable metrics_of : list Q -> Metrics.

(** Cross-path statistics over the collected paths. *)
Variable Statistics : Type.
Variable reduce : list (list SimulationState) -> Statistics.

(** Modelled from the spec: one SimulationPath with its metrics and
    its warnings (sections 3 and 6). *)
Record PathResult : Type := mkPathResult {
  path_states : list SimulationState;
  path_metrics : Metrics;
  path_warnings : list Warning
}.

(** Modelled from the spec: the response of section 6. *)
Record SimulationResult : Type := mkSimulationResult {
  portfolio : list PathResult;
  statistics : Statistics
}.

(** Modelled from the spec: before month 0 the initial capital sits in
    the public sleeve (section 4.2, initial state). *)
Definition initial_sleeves (req : Request) : SimulationState :=
  record_state (initial_capital req) 0 0.

(** Modelled from the spec: one path, end to end (section 2). *)
Definition run_path (req : Request) (master : Z) (idx : nat) : PathResult :=
  let src := from_seed (subseed master idx) in
  let (sts, ws) := aggregate 0 (initial_sleeves req) (sleeve_flows req src) in
  mkPathResult sts (metrics_of (map total sts)) ws.

(** Modelled from the spec: the path a worker completed for index
    [idx], if any (section 5). *)
Fixpoint completed_path (idx : nat) (done : list (nat * PathResult))
  : option PathResult :=
  match done with
  | [] => None
  | (i, p) :: rest => if Nat.eqb i idx then Some p else completed_path idx rest
  end.

(** Modelled from the spec: the final reduction reads the completed
    paths by index, whatever the order the workers finished in
    (section 5, order-independent reduction). *)
Definition collect (n : nat) (done : list (nat * PathResult)) : list PathResult :=
  flat_map (fun i => match completed_path i done with
                     | Some p => [p]
                     | None => []
                     end) (seq 0 n).

(** Modelled from the spec: the Simulation Orchestrator (section
    4.6), absent from the sources. [entropy] is what a run without a
    seed draws its master seed from; [schedule] is the order in which
    the workers complete the path indices. *)
Definition simulate (entropy : Z) (schedule : list nat) (req : Request)
  : ConfigurationError + SimulationResult :=
  match validate req with
  | Some err => inl err
  | None =>
      let master := match seed req with Some s => s | None => entropy end in
      let done := map (fun i => (i, run_path req master i)) schedule in
      let paths := collect (num_paths req) done in
      inr (mkSimulationResult paths (reduce (map path_states paths)))
  end.

End Orchestrator.

(** *** A small instance of the parameters

    The source is its seed; the sub-seed of path [i] is [master + i]; a
    path has three months: a call of 5000 in month 0, a public move
    that depends on the source and a distribution of 300 in month 1,
    and in month 2 a call of 200000 (NAV delta: the call less 100 of
    fees), larger than cash and the public sleeve together. *)

Definition sample_subseed (master : Z) (idx : nat) : Z := (master + Z.of_nat idx)%Z.

Definition sample_flows (req : Request) (src : Z) : list MonthFlows :=
  [ mkMonthFlows 0 (5000 # 1) (5000 # 1) 0;
    mkMonthFlows (inject_Z (src mod 7) * (100 # 1)) (250 # 1) 0 (300 # 1);
    mkMonthFlows (1000 # 1) (199900 # 1) (200000 # 1) 0 ].

Definition sample_metrics (totals : list Q) : Q := last totals 0.

Definition sample_reduce (paths : list (list SimulationState)) : nat :=
  List.length paths.

Definition sample_simulate (entropy : Z) (schedule : list nat) (req : Request)
  : ConfigurationError + SimulationResult Q nat :=
  simulate Z (fun z => z) sample_subseed sample_flows Q sample_metrics
           nat sample_reduce entropy schedule req.

Definition sample_request (seed : option Z) : Request :=
  mkRequest (100000 # 1) [("SPY", 6 # 10); ("TLT", 4 # 10)] None
            [(5000 # 1, 0%nat)] 2 2 PolicyNone seed.

End Engine.

(** ** Reading the posted request, and the specification's predicates *)

Module Contract.

(** The symbol and the weight the [forEach] callback reads from one
    pair. *)
Definition pair_symbol (pair : string) : string :=
  match split ":" (trim pair) with
  | symbol :: _ => trim symbol
  | [] => EmptyString
  end.

Definition pair_weight (pair : string) : JsNum :=
  match split ":" (trim pair) with
  | _ :: rest => parseFloat_opt (hd_error rest)
  | [] => NaN
  end.

(** The [weights] object once the [forEach] over the pairs is done. *)
Definition weights_of_pairs (pairs : list string) (weights : Fields) : Fields :=
  fold_left
    (fun acc pair => assign (pair_symbol pair) (JNumber (pair_weight pair)) acc)
    pairs weights.

Definition weights_of_input (input : string) : Fields :=
  weights_of_pairs (split "," input) [].

(** The body that [handleSimulation] posts from the state [st]. *)
Definition sent_body (st : AppState) : JsValue :=
  request_body st (weights_of_input (publicWeightsInput st)).

(** [k in v] and [v.k] for a posted body. *)
Definition has_field (k : string) (v : JsValue) : bool :=
  match v with
  | JObject fs => has_key k fs
  | _ => false
  end.

Definition field (k : string) (v : JsValue) : JsValue :=
  match v with
  | JObject fs => get k fs
  | _ => JUndefined
  end.

Definition field_names (v : JsValue) : list string :=
  match v with
  | JObject fs => map fst fs
  | _ => []
  end.

Definition is_number (v : JsValue) : bool :=
  match v with JNumber _ => true | _ => false end.

(** The specification's shape of [returns_data]: a mapping from asset
    identifier to an ordered sequence of monthly returns. *)
Definition spec_returns_mapping (v : JsValue) : bool :=
  match v with
  | JObject fs =>
      forallb (fun kv => match snd kv with
                         | JArray xs => forallb is_number xs
                         | _ => false
                         end) fs
  | _ => false
  end.

Definition number_of (v : JsValue) : JsNum :=
  match v with JNumber n => n | _ => NaN end.

Definition sum_values (fs : Fields) : JsNum :=
  fold_left (fun acc kv => add acc (number_of (snd kv))) fs (Num 0).

(** The specification's weight constraint: non-negative values that
    sum to 1.0 within 1e-6. *)
Definition spec_weights_valid (v : JsValue) : bool :=
  match v with
  | JObject fs =>
      forallb (fun kv => is_number (snd kv) && ge0 (number_of (snd kv))) fs
      && within (1 # 1000000) 1 (sum_values fs)
  | _ => false
  end.

(** The specification's PrivateCommitment constraint on one entry:
    commitment amount > 0 and start month >= 0. *)
Definition spec_commitment_valid (entry : JsValue) : bool :=
  gt0 (number_of (field "commitment" entry))
  && ge0 (number_of (field "start_month" entry)).

(** The claim's words for a retained CSV row: every column value is
    neither null nor the empty string. *)
Definition spec_row_complete (row : Fields) : Prop :=
  forall k v, In (k, v) row -> v <> JNull /\ v <> JString EmptyString.

(** The row with its Date column removed, the other columns in place. *)
Inductive spec_date_removed : Fields -> Fields -> Prop :=
| date_removed_nil : spec_date_removed [] []
| date_removed_skip v row row' :
    spec_date_removed row row' ->
    spec_date_removed (("Date", v) :: row) row'
| date_removed_keep k v row row' :
    k <> "Date" ->
    spec_date_removed row row' ->
    spec_date_removed ((k, v) :: row) ((k, v) :: row').

(** The rows of a parsed file that are kept, in file order, each
    without its Date column; the rows with a missing value dropped. *)
Inductive spec_retained : list Fields -> list Fields -> Prop :=
| retained_nil : spec_retained [] []
| retained_keep row row' rows out :
    spec_row_complete row ->
    spec_date_removed row row' ->
    spec_retained rows out ->
    spec_retained (row :: rows) (row' :: out)
| retained_drop row rows out :
    ~ spec_row_complete row ->
    spec_retained rows out ->
    spec_retained (row :: rows) out.

(** The file of the last upload among the events, if any. *)
Definition last_upload (evs : list Event) : option CsvFile :=
  fold_left (fun acc ev => match ev with
                           | ChangeCsvFile (Some f) => Some f
                           | _ => acc
                           end) evs None.

(** What [handleCSVUpload] stores for a file. *)
Definition stored_rows (f : CsvFile) : list Fields :=
  map (fun row => omit "Date" row) (filter row_is_clean (parsed_data f)).

(** A backend that rejects every request, and one that answers with a
    small result. *)
Definition backend_down : string -> JsValue -> Exn + JsValue :=
  fun _ _ => inl (AxiosError "Network Error").

Definition sample_result : JsValue :=
  JObject [ ("metrics", JObject [("CAGR", JNumber (Num (7 # 100)))]);
            ("portfolio",
             JObject [ ("public", JArray [JNumber (Num (100000 # 1))]);
                       ("private", JArray [JNumber (Num 0)]);
                       ("cash", JArray [JNumber (Num 0)]);
                       ("total", JArray [JNumber (Num (100000 # 1))]) ]) ].

Definition backend_up : string -> JsValue -> Exn + JsValue :=
  fun _ _ => inr (JObject [("result", sample_result)]).

(** A two-record upload; the second record has an empty cell, which
    [dynamicTyping] delivers as [null]. *)
Definition sample_csv : CsvFile :=
  mkCsvFile "returns.csv"
    [ [ ("Date", JString "2020-01"); ("SPY", JNumber (Num (1 # 100)));
        ("TLT", JNumber (Num (5 # 1000))) ];
      [ ("Date", JString "2020-02"); ("SPY", JNull);
        ("TLT", JNumber (Num (2 # 1000))) ] ].

End Contract.
Export Contract.

(** ** What the component renders *)

Module Render.

(** What evaluating the JSX of the performance block can throw. *)
Inductive RenderExn : Type :=
| RenderTypeError (reading : string)
| RenderRangeError
| RenderInvalidChild.

Definition bindR {A B : Type} (c : RenderExn + A) (k : A -> RenderExn + B)
  : RenderExn + B :=
  match c with
  | inl e => inl e
  | inr a => k a
  end.

(** The decimal text of an array index. *)
Definition index_key (i : nat) : string :=
  DecimalString.NilEmpty.string_of_uint (Nat.to_uint i).

(** [v.k] for the property names the block reads ([metrics],
    [portfolio], [total], [public], [private], [cash], [length]):
    reading from [undefined] or [null] throws; an array and a string
    have [length] and none of the others; a number and a boolean have
    none. *)
Definition member (k : string) (v : JsValue) : RenderExn + JsValue :=
  match v with
  | JUndefined | JNull => inl (RenderTypeError k)
  | JObject fs => inr (get k fs)
  | JArray xs =>
      inr (if String.eqb k "length"
           then JNumber (of_Z (Z.of_nat (List.length xs))) else JUndefined)
  | JString s =>
      inr (if String.eqb k "length"
           then JNumber (of_Z (Z.of_nat (String.length s))) else JUndefined)
  | JBool _ | JNumber _ => inr JUndefined
  end.

Fixpoint indexed_from {A : Type} (i : nat) (xs : list A) : list (string * A) :=
  match xs with
  | [] => []
  | x :: xs' => (index_key i, x) :: indexed_from (S i) xs'
  end.

Fixpoint chars (s : string) : list JsValue :=
  match s with
  | EmptyString => []
  | String c s' => JString (String c EmptyString) :: chars s'
  end.

(** [Object.entries(v)]: throws on [undefined] and [null]; the own
    properties of an object; the indexed elements of an array and the
    indexed characters of a string; nothing for a number or a boolean. *)
Definition Object_entries (v : JsValue) : RenderExn + Fields :=
  match v with
  | JUndefined | JNull => inl (RenderTypeError "entries")
  | JObject fs => inr fs
  | JArray xs => inr (indexed_from 0 xs)
  | JString s => inr (indexed_from 0 (chars s))
  | JBool _ | JNumber _ => inr []
  end.

(** [[...Array(len).keys()]]: for a number, the indices below it when
    it is an integer from 0 to 2^32 - 1 and a RangeError otherwise; for
    any other value [Array] builds a one-element array, whose only key
    is 0. *)
Definition Array_keys (len : JsValue) : RenderExn + list nat :=
  match len with
  | JNumber (Num q) =>
      if ((Qnum q mod Zpos (Qden q) =? 0) && (0 <=? Qnum q)
          && (Qnum q / Zpos (Qden q) <=? 4294967295))%Z
      then inr (seq 0 (Z.to_nat (Qnum q / Zpos (Qden q))))
      else inl RenderRangeError
  | JNumber _ => inl RenderRangeError
  | _ => inr [0%nat]
  end.

(** One object literal of the [data] prop of [Plot]. *)
Record Trace : Type := mkTrace {
  trace_x : list nat;
  trace_y : JsValue;
  trace_name : string;
  trace_color : string;
  trace_width : nat
}.

(** [{ x: [...Array(result.portfolio.total.length).keys()],
       y: result.portfolio[sleeve], name, line: { color, width } }] *)
Definition trace (res : JsValue) (sleeve name color : string) (width : nat)
  : RenderExn + Trace :=
  bindR (member "portfolio" res) (fun portfolio =>
  bindR (member "total" portfolio) (fun total =>
  bindR (member "length" total) (fun len =>
  bindR (Array_keys len) (fun x =>
  bindR (member "portfolio" res) (fun portfolio' =>
  bindR (member sleeve portfolio') (fun y =>
  inr (mkTrace x y name color width))))))).

(** What React accepts as the child [{value}] of a list item: a
    string, a number, a boolean, [null], [undefined], or an array of
    such; a plain object is refused ("Objects are not valid as a React
    child"). *)
Fixpoint valid_child (v : JsValue) : bool :=
  match v with
  | JObject _ => false
  | JArray xs =>
      (fix all (l : list JsValue) : bool :=
         match l with
         | [] => true
         | x :: l' => valid_child x && all l'
         end) xs
  | _ => true
  end.

(** The element [{result && (...)}] evaluates to: the falsy [result]
    itself, or the block with one list item per metric and the four
    traces of the chart. React's check of the list items' children is
    part of the model; what Plotly does with the traces is not. *)
Inductive PerformanceView : Type :=
| NoBlock (falsy : JsValue)
| Block (metric_items : Fields) (data : list Trace).

Definition render_performance (res : JsValue) : RenderExn + PerformanceView :=
  if truthy res then
    bindR (member "metrics" res) (fun metrics =>
    bindR (Object_entries metrics) (fun items =>
    bindR (trace res "public" "Public" "#1f77b4" 2) (fun t1 =>
    bindR (trace res "private" "Private" "#ff7f0e" 2) (fun t2 =>
    bindR (trace res "cash" "Cash" "#2ca02c" 2) (fun t3 =>
    bindR (trace res "total" "Total Portfolio" "#d62728" 4) (fun t4 =>
    if forallb valid_child (Object_values items)
    then inr (Block items [t1; t2; t3; t4])
    else inl RenderInvalidChild))))))
  else inr (NoBlock res).

(** [xs.map((x, i) => f(x, i))] *)
Fixpoint map_from {A B : Type} (f : A -> nat -> B) (i : nat) (xs : list A)
  : list B :=
  match xs with
  | [] => []
  | x :: xs' => f x i :: map_from f (S i) xs'
  end.

(** One [<li>] of the investments list: the two values it shows and the
    index its Remove button closes over. Every entry of the list is an
    object (it was built by Add), so [inv.commitment] is [field] here. *)
Record InvestmentItem : Type := mkInvestmentItem {
  item_commitment : JsValue;
  item_start_month : JsValue;
  item_remove_idx : nat
}.

(** [privateInvestments.length > 0 && (<ul> ... </ul>)]: no list at all
    for an empty array. *)
Definition render_investments (st : AppState) : option (list InvestmentItem) :=
  if (0 <? List.length (privateInvestments st))%nat then
    Some (map_from
            (fun inv idx =>
               mkInvestmentItem (field "commitment" inv) (field "start_month" inv) idx)
            0 (privateInvestments st))
  else None.


(** Whether a character occurs in a string. *)
Fixpoint has_char (c : ascii) (s : string) : bool :=
  match s with
  | EmptyString => false
  | String c' s' => Ascii.eqb c' c || has_char c s'
  end.

(** A response whose result has the shape the block reads. *)
Definition good_result (metrics : Fields) (pub prv csh tot : list JsValue)
  : JsValue :=
  JObject [ ("metrics", JObject metrics);
            ("portfolio",
             JObject [ ("public", JArray pub); ("private", JArray prv);
                       ("cash", JArray csh); ("total", JArray tot) ]) ].

End Render.
Export Render.

(** ** Shapes used by the properties of the handlers *)

(** An entry of the weights object: a trimmed key and a number. *)
Definition weight_entry_ok (kv : string * JsValue) : Prop :=
  trim (fst kv) = fst kv /\ is_number (snd kv) = true.

(** A number that is [NaN] or an integer below 2^53 in magnitude, the
    range in which binary64 holds every integer exactly. *)
Definition safe_integer_or_NaN (v : JsValue) : Prop :=
  v = JNumber NaN
  \/ exists z : Z, (Z.abs z < 2 ^ 53)%Z /\ v = JNumber (Num (inject_Z z)).

(** Every string typed into the start-month input has at most 15
    characters. *)
Definition start_months_short (evs : list Event) : Prop :=
  Forall (fun ev => match ev with
                    | ChangePrivateStartMonth v => (String.length v <= 15)%nat
                    | _ => True
                    end) evs.

(** An entry that an Add click among the events [evs] built: the click
    came after the events [pre], found both inputs non-empty, and the
    entry is what Add parses from the two strings the inputs held at
    that click. *)
Definition added_by_click (evs : list Event) (entry : JsValue) : Prop :=
  exists pre post : list Event,
    evs = pre ++ ClickAdd :: post
    /\ privateCommitment (run_events pre initial_state) <> EmptyString
    /\ privateStartMonth (run_events pre initial_state) <> EmptyString
    /\ entry
       = JObject
           [ ("commitment",
              JNumber (parseFloat (privateCommitment (run_events pre initial_state))));
             ("start_month",
              JNumber (parseInt (privateStartMonth (run_events pre initial_state)))) ].

(** The decimal text of a natural number, as React shows a number. *)
Definition decimal (n : nat) : string :=
  DecimalString.NilEmpty.string_of_uint (Nat.to_uint n).

(** [v == null]: [undefined] or [null]. *)
Definition nullish (v : JsValue) : bool :=
  match v with JUndefined | JNull => true | _ => false end.

(** [v.k] where it does not throw, [undefined] where it does. *)
Definition read (k : string) (v : JsValue) : JsValue :=
  match member k v with inr x => x | inl _ => JUndefined end.

(** * Properties *)

Local Open Scope nat_scope.

(** ** The built-ins on sample inputs *)

Example trim_pads : trim "  SPY " = "SPY".
Proof. reflexivity. Qed.

Example split_default : split "," "SPY:0.6, TLT:0.4" = ["SPY:0.6"; " TLT:0.4"].
Proof. reflexivity. Qed.

Example split_empty : split "," EmptyString = [EmptyString].
Proof. reflexivity. Qed.

Example parseFloat_default : parseFloat "100000" = Num (100000 # 1).
Proof. reflexivity. Qed.

Example parseFloat_fraction : parseFloat "0.6" = Num (3 # 5).
Proof. reflexivity. Qed.

Example parseFloat_exponent : parseFloat " -1.5e2x" = Num (-150 # 1).
Proof. reflexivity. Qed.

Example parseFloat_empty : parseFloat EmptyString = NaN.
Proof. reflexivity. Qed.

Example parseFloat_dot : parseFloat ".e5" = NaN.
Proof. reflexivity. Qed.

Example parseInt_fraction : parseInt "3.7" = Num (3 # 1).
Proof. reflexivity. Qed.

Example parseInt_exponent : parseInt "1e3" = Num (1 # 1).
Proof. reflexivity. Qed.

Example parseInt_hex : parseInt "0x1f" = Num (31 # 1).
Proof. reflexivity. Qed.

(** ** The handlers on sample inputs *)

Example default_weights :
  weights_of_input (publicWeightsInput initial_state)
  = [("SPY", JNumber (Num (3 # 5))); ("TLT", JNumber (Num (2 # 5)))]
  /\ spec_weights_valid
       (JObject (weights_of_input (publicWeightsInput initial_state))) = true.
Proof. split; reflexivity. Qed.

Example weight_without_colon : weights_of_input "SPY" = [("SPY", JNumber NaN)].
Proof. reflexivity. Qed.

Example repeated_symbol_keeps_its_place :
  weights_of_input "A:0.2, B:0.3, A:0.7"
  = [("A", JNumber (Num (7 # 10))); ("B", JNumber (Num (3 # 10)))].
Proof. reflexivity. Qed.

Example proto_weight_is_dropped :
  weights_of_input "__proto__:1, A:1" = [("A", JNumber (Num (1 # 1)))].
Proof. reflexivity. Qed.

Example upload_sample :
  returnsData (handleCSVUpload (Some sample_csv) initial_state)
  = JArray [JObject [ ("SPY", JNumber (Num (1 # 100)));
                      ("TLT", JNumber (Num (5 # 1000))) ]].
Proof. reflexivity. Qed.

Example run_against_backend_up :
  let st := store (run_simulation backend_up initial_state) in
  result st = sample_result /\ loading st = false /\ shows_performance st = true.
Proof. repeat split. Qed.

Example remove_second_of_three :
  Array_filter (fun _ i => negb (Nat.eqb i 1)) ["a"; "b"; "c"] = ["a"; "c"].
Proof. reflexivity. Qed.

(** ** The handler, run to its end *)

Section SimulationRun.

Variable backend : string -> JsValue -> Exn + JsValue.

Lemma split_not_nil (sep : ascii) (s : string) : split sep s <> [].
Proof.
  induction s as [|c s IH]; simpl.
  - discriminate.
  - destruct (Ascii.eqb c sep); [discriminate|].
    destruct (split sep s); [contradiction|discriminate].
Qed.

(** The callback of the [forEach] never throws: [split] always yields a
    first piece to trim. *)
Lemma add_weight_returns (pair : string) (weights : Fields) (w : World) :
  add_weight pair weights w
  = (inr (assign (pair_symbol pair) (JNumber (pair_weight pair)) weights), w).
Proof.
  unfold add_weight, pair_symbol, pair_weight.
  destruct (split ":" (trim pair)) as [|symbol rest] eqn:E.
  - exfalso. exact (split_not_nil _ _ E).
  - reflexivity.
Qed.

Lemma forEach_add_weight (pairs : list string) :
  forall (weights : Fields) (w : World),
    forEach pairs add_weight weights w
    = (inr (weights_of_pairs pairs weights), w).
Proof.
  induction pairs as [|pair pairs IH]; intros weights w.
  - reflexivity.
  - cbn [forEach]. unfold bind at 1. rewrite add_weight_returns.
    rewrite IH. reflexivity.
Qed.

Lemma handleSimulation_unfold (st : AppState) (w : World) :
  handleSimulation backend st w
  = let w1 := mkWorld (setResult JNull (setLoading true (store w)))
                      (posted w ++ [(simulate_url, sent_body st)])
                      (console w) (alerts w) in
    let failed :=
      mkWorld (setLoading false (store w1)) (posted w1)
              (console w ++ ["Error calling backend:"])
              (alerts w ++ ["Error calling backend. Check terminal/console."]) in
    match backend simulate_url (sent_body st) with
    | inl _ => (inr tt, failed)
    | inr JUndefined | inr JNull => (inr tt, failed)
    | inr (JObject fs) =>
        (inr tt, mkWorld (setLoading false (setResult (get "result" fs) (store w1)))
                         (posted w1) (console w) (alerts w))
    | inr _ =>
        (inr tt, mkWorld (setLoading false (setResult JUndefined (store w1)))
                         (posted w1) (console w) (alerts w))
    end.
Proof.
  unfold handleSimulation, sent_body, weights_of_input.
  unfold bind at 1. cbn [update].
  unfold bind at 1. cbn [update store posted console alerts].
  unfold bind at 1. unfold try_catch.
  unfold bind at 1. rewrite forEach_add_weight.
  unfold bind at 1. unfold axios_post.
  cbn [store posted console alerts].
  destruct (backend simulate_url _) as [e|data]; [reflexivity|].
  destruct data; reflexivity.
Qed.

Lemma posted_run_simulation (st : AppState) :
  posted (run_simulation backend st) = [(simulate_url, sent_body st)].
Proof.
  unfold run_simulation. rewrite handleSimulation_unfold. cbn zeta.
  destruct (backend simulate_url _) as [e|data]; [reflexivity|].
  destruct data; reflexivity.
Qed.

(** Whatever the backend answers, the handler leaves every cell but
    [result] and [loading] as it found it. *)
Lemma run_simulation_inputs (st : AppState) :
  let st' := store (run_simulation backend st) in
  initialCapital st' = initialCapital st
  /\ publicWeightsInput st' = publicWeightsInput st
  /\ returnsData st' = returnsData st
  /\ privateCommitment st' = privateCommitment st
  /\ privateStartMonth st' = privateStartMonth st
  /\ privateInvestments st' = privateInvestments st.
Proof.
  unfold run_simulation. rewrite handleSimulation_unfold. cbn zeta.
  destruct (backend simulate_url _) as [e|data];
    [|destruct data]; cbn; repeat split.
Qed.

End SimulationRun.

(** ** The fields of the request *)

Lemma requests_after_eq (evs : list Event)
    (backend : string -> JsValue -> Exn + JsValue) :
  requests_after evs backend
  = [(simulate_url, sent_body (run_events evs initial_state))].
Proof. unfold requests_after. apply posted_run_simulation. Qed.

(** C2, as stated, fails: the request posted from the initial state has
    no [horizon_months], no [num_paths] and no [rebalancing_policy]
    field. *)
Lemma C2_request_lacks_engine_fields :
  exists body,
    requests_after [] backend_up = [(simulate_url, body)]
    /\ has_field "horizon_months" body = false
    /\ has_field "num_paths" body = false
    /\ has_field "rebalancing_policy" body = false.
Proof.
  eexists. split; [apply requests_after_eq|].
  repeat split; reflexivity.
Qed.

(** C2, amended: after any events and whatever the backend answers, a
    click on Run posts exactly one request, to [/simulate], and its
    fields are exactly [initial_capital], [public_weights],
    [private_commitments] and [returns_data], in this order. *)
Theorem C2_request_has_four_fields (evs : list Event)
    (backend : string -> JsValue -> Exn + JsValue) :
  exists body,
    requests_after evs backend = [(simulate_url, body)]
    /\ field_names body
       = ["initial_capital"; "public_weights"; "private_commitments";
          "returns_data"].
Proof.
  eexists. split; [apply requests_after_eq|]. reflexivity.
Qed.

(** C7, as stated, fails: with -5 typed into the initial-capital input
    the request carries [initial_capital = -5], which is not positive. *)
Lemma C7_negative_capital_is_sent :
  exists body,
    requests_after [ChangeInitialCapital "-5"] backend_up = [(simulate_url, body)]
    /\ field "initial_capital" body = JNumber (Num (-5 # 1))
    /\ gt0 (number_of (field "initial_capital" body)) = false.
Proof.
  eexists. split; [apply requests_after_eq|].
  split; reflexivity.
Qed.

(** C7, amended: the [initial_capital] field of the request is
    [parseFloat] of the string held by the initial-capital input,
    unchecked; it is positive exactly when that string parses to a
    positive number. *)
Theorem C7_initial_capital_is_parsed_input (evs : list Event)
    (backend : string -> JsValue -> Exn + JsValue) :
  exists body,
    requests_after evs backend = [(simulate_url, body)]
    /\ field "initial_capital" body
       = JNumber (parseFloat (initialCapital (run_events evs initial_state)))
    /\ gt0 (number_of (field "initial_capital" body))
       = gt0 (parseFloat (initialCapital (run_events evs initial_state))).
Proof.
  eexists. split; [apply requests_after_eq|].
  split; reflexivity.
Qed.

(** ** A failed request *)

(** C8: when the backend rejects the posted request, [handleSimulation]
    ends with [result] null and [loading] false, and the performance
    block is not rendered. *)
Theorem C8_failed_request_leaves_no_result
    (backend : string -> JsValue -> Exn + JsValue) (st : AppState) (e : Exn)
    (Hfail : backend simulate_url (sent_body st) = inl e) :
  let st' := store (run_simulation backend st) in
  result st' = JNull /\ loading st' = false /\ shows_performance st' = false.
Proof.
  unfold run_simulation. rewrite handleSimulation_unfold. cbn zeta.
  rewrite Hfail. cbn. repeat split.
Qed.

(** The state after one successful run, then a run against a backend
    that is down: the earlier result is gone. *)
Lemma C8_failed_request_witness :
  let st := store (run_simulation backend_up initial_state) in
  result st = sample_result
  /\ backend_down simulate_url (sent_body st) = inl (AxiosError "Network Error")
  /\ (let st' := store (run_simulation backend_down st) in
      result st' = JNull /\ loading st' = false /\ shows_performance st' = false).
Proof.
  split; [reflexivity|]. split; [reflexivity|].
  apply (C8_failed_request_leaves_no_result backend_down
           (store (run_simulation backend_up initial_state))
           (AxiosError "Network Error")).
  reflexivity.
Defined.

(** ** The private investments list *)

Lemma filter_from_skip_index {A : Type} (idx : nat) (xs : list A) :
  forall k,
    filter_from (fun _ i => negb (Nat.eqb i idx)) k xs
    = if Nat.leb k idx then firstn (idx - k) xs ++ skipn (S (idx - k)) xs
      else xs.
Proof.
  induction xs as [|x xs IH]; intro k.
  - destruct (Nat.leb k idx); [|reflexivity].
    now rewrite firstn_nil, skipn_nil.
  - cbn [filter_from]. rewrite IH.
    destruct (Nat.eqb_spec k idx) as [->|Hne].
    + cbn [negb]. rewrite Nat.leb_refl, Nat.sub_diag.
      destruct (Nat.leb_spec (S idx) idx); [lia|]. reflexivity.
    + cbn [negb]. destruct (Nat.leb_spec k idx) as [Hle|Hgt].
      * destruct (Nat.leb_spec (S k) idx); [|lia].
        replace (idx - k) with (S (idx - S k)) by lia. reflexivity.
      * destruct (Nat.leb_spec (S k) idx); [lia|]. reflexivity.
Qed.

Lemma Array_filter_skip_index {A : Type} (idx : nat) (xs : list A) :
  Array_filter (fun _ i => negb (Nat.eqb i idx)) xs
  = firstn idx xs ++ skipn (S idx) xs.
Proof.
  unfold Array_filter. rewrite filter_from_skip_index.
  cbn [Nat.leb]. now rewrite Nat.sub_0_r.
Qed.

Lemma Forall_filter_from {A : Type} (P : A -> Prop) (keep : A -> nat -> bool)
    (xs : list A) :
  Forall P xs -> forall k, Forall P (filter_from keep k xs).
Proof.
  induction 1 as [|x xs Hx Hxs IH]; intro k; cbn [filter_from].
  - constructor.
  - destruct (keep x k); [constructor; [exact Hx|]|]; apply IH.
Qed.

Lemma click_add_guard (st : AppState) :
  privateCommitment st <> EmptyString -> privateStartMonth st <> EmptyString ->
  truthy (JString (privateCommitment st))
  && negb (String.eqb (privateStartMonth st) EmptyString) = true.
Proof.
  intros Hc Hm. cbn [truthy].
  destruct (String.eqb_spec (privateCommitment st) EmptyString); [contradiction|].
  destruct (String.eqb_spec (privateStartMonth st) EmptyString); [contradiction|].
  reflexivity.
Qed.

Lemma click_add_guard_inv (st : AppState) :
  truthy (JString (privateCommitment st))
  && negb (String.eqb (privateStartMonth st) EmptyString) = true ->
  privateCommitment st <> EmptyString /\ privateStartMonth st <> EmptyString.
Proof.
  cbn [truthy]. intro H. apply andb_true_iff in H. destruct H as [Hc Hm].
  destruct (String.eqb_spec (privateCommitment st) EmptyString); [discriminate|].
  destruct (String.eqb_spec (privateStartMonth st) EmptyString); [discriminate|].
  split; assumption.
Qed.

(** With an input left empty, Add does nothing. *)
Lemma click_add_empty_input (st : AppState) :
  privateCommitment st = EmptyString \/ privateStartMonth st = EmptyString ->
  click_add st = st.
Proof.
  intros [H|H]; unfold click_add; rewrite H; cbn [truthy String.eqb negb andb];
    [reflexivity|]. now rewrite andb_false_r.
Qed.

(** Only the Add and Remove buttons change the list. *)
Lemma step_keeps_investments (st : AppState) (ev : Event) :
  match ev with
  | ClickAdd | ClickRemove _ => True
  | _ => privateInvestments (step st ev) = privateInvestments st
  end.
Proof.
  destruct ev as [v|file|v|v|v| |idx|backend]; cbn [step]; try exact I;
    try reflexivity.
  - destruct file; reflexivity.
  - destruct (loading st); [reflexivity|].
    apply (run_simulation_inputs backend st).
Qed.

(** C9: the request carries the list of investments exactly as the
    state holds it, in every state; Add, with both inputs non-empty,
    appends the new entry at the end, and with an input empty leaves the
    list alone; Remove at index [idx] deletes the entry at [idx] and
    keeps the others in their order; no other event touches the list. *)
Theorem C9_private_commitments_in_insertion_order
    (backend : string -> JsValue -> Exn + JsValue) (st : AppState) :
  (exists body,
      posted (run_simulation backend st) = [(simulate_url, body)]
      /\ field "private_commitments" body = JArray (privateInvestments st))
  /\ (privateCommitment st <> EmptyString ->
      privateStartMonth st <> EmptyString ->
      privateInvestments (click_add st)
      = privateInvestments st
        ++ [JObject [ ("commitment", JNumber (parseFloat (privateCommitment st)));
                      ("start_month", JNumber (parseInt (privateStartMonth st))) ]])
  /\ (privateCommitment st = EmptyString \/ privateStartMonth st = EmptyString ->
      privateInvestments (click_add st) = privateInvestments st)
  /\ (forall idx,
         privateInvestments (click_remove idx st)
         = firstn idx (privateInvestments st)
           ++ skipn (S idx) (privateInvestments st))
  /\ (forall idx,
         idx < List.length (privateInvestments st) ->
         S (List.length (privateInvestments (click_remove idx st)))
         = List.length (privateInvestments st))
  /\ (forall ev,
         match ev with
         | ClickAdd | ClickRemove _ => True
         | _ => privateInvestments (step st ev) = privateInvestments st
         end).
Proof.
  split; [|split; [|split; [|split; [|split]]]].
  - eexists. split; [apply posted_run_simulation|reflexivity].
  - intros Hc Hm. unfold click_add. rewrite (click_add_guard st Hc Hm).
    reflexivity.
  - intro Hempty. now rewrite (click_add_empty_input st Hempty).
  - intro idx. unfold click_remove.
    cbn [privateInvestments setPrivateInvestments].
    apply Array_filter_skip_index.
  - intros idx Hidx. unfold click_remove.
    cbn [privateInvestments setPrivateInvestments].
    rewrite Array_filter_skip_index, length_app, length_firstn, length_skipn.
    lia.
  - intro ev. apply step_keeps_investments.
Qed.

(** Two investments added, the inputs filled for a third, and the first
    one removed; and the request of that state, of the state the third
    Add leaves (inputs cleared) and of the initial state (empty list). *)
Lemma C9_insertion_order_witness :
  let st := run_events
              [ ChangePrivateCommitment "5000"; ChangePrivateStartMonth "0"; ClickAdd;
                ChangePrivateCommitment "7000"; ChangePrivateStartMonth "12"; ClickAdd;
                ChangePrivateCommitment "900"; ChangePrivateStartMonth "24" ]
              initial_state in
  privateInvestments st = [newInvestment "5000" "0"; newInvestment "7000" "12"]
  /\ privateInvestments (click_add st)
     = [newInvestment "5000" "0"; newInvestment "7000" "12"; newInvestment "900" "24"]
  /\ privateInvestments (click_add (click_add st))
     = [newInvestment "5000" "0"; newInvestment "7000" "12"; newInvestment "900" "24"]
  /\ privateInvestments (click_remove 0 st) = [newInvestment "7000" "12"]
  /\ (exists body,
         posted (run_simulation backend_up (click_add st)) = [(simulate_url, body)]
         /\ field "private_commitments" body
            = JArray [ newInvestment "5000" "0"; newInvestment "7000" "12";
                       newInvestment "900" "24" ])
  /\ (exists body,
         posted (run_simulation backend_up initial_state) = [(simulate_url, body)]
         /\ field "private_commitments" body = JArray []).
Proof.
  cbv zeta.
  set (st := run_events _ initial_state).
  assert (Hc : privateCommitment st <> EmptyString) by (vm_compute; discriminate).
  assert (Hm : privateStartMonth st <> EmptyString) by (vm_compute; discriminate).
  assert (Hempty : privateCommitment (click_add st) = EmptyString
                   \/ privateStartMonth (click_add st) = EmptyString)
    by (left; reflexivity).
  destruct (C9_private_commitments_in_insertion_order backend_up st)
    as (_ & Hadd & _ & Hrem & _).
  destruct (C9_private_commitments_in_insertion_order backend_up (click_add st))
    as (Hreq & _ & Hnoadd & _).
  destruct (C9_private_commitments_in_insertion_order backend_up initial_state)
    as (Hreq0 & _).
  assert (Hlist : privateInvestments (click_add st)
                  = [ newInvestment "5000" "0"; newInvestment "7000" "12";
                      newInvestment "900" "24" ])
    by (rewrite (Hadd Hc Hm); reflexivity).
  split; [reflexivity|]. split; [exact Hlist|]. split; [|split; [|split]].
  - rewrite (Hnoadd Hempty). exact Hlist.
  - rewrite (Hrem 0). reflexivity.
  - rewrite <- Hlist. exact Hreq.
  - exact Hreq0.
Defined.

Lemma run_events_app (evs1 evs2 : list Event) (st : AppState) :
  run_events (evs1 ++ evs2) st = run_events evs2 (run_events evs1 st).
Proof. unfold run_events. apply fold_left_app. Qed.

Lemma added_by_click_later (evs : list Event) (ev : Event) (entry : JsValue) :
  added_by_click evs entry -> added_by_click (evs ++ [ev]) entry.
Proof.
  intros (pre & post & -> & Hc & Hm & Hentry).
  exists pre, (post ++ [ev]). rewrite <- app_assoc. now repeat split.
Qed.

(** Every entry of the list was built by an Add click of the events
    that led to the state, from what the inputs held at that click. *)
Lemma entries_added_by_click (evs : list Event) :
  Forall (added_by_click evs) (privateInvestments (run_events evs initial_state)).
Proof.
  induction evs as [|ev evs IH] using rev_ind.
  - constructor.
  - rewrite run_events_app. cbn [run_events fold_left].
    fold (run_events evs initial_state).
    set (st := run_events evs initial_state) in *.
    assert (Hold : Forall (added_by_click (evs ++ [ev])) (privateInvestments st)).
    { eapply Forall_impl; [|exact IH]. intro entry. apply added_by_click_later. }
    pose proof (step_keeps_investments st ev) as Hkeep.
    destruct ev as [v|file|v|v|v| |idx|backend]; try (rewrite Hkeep; exact Hold).
    + cbn [step]. unfold click_add.
      destruct (truthy (JString (privateCommitment st))
                && negb (String.eqb (privateStartMonth st) EmptyString))
        eqn:Hguard; [|exact Hold].
      apply click_add_guard_inv in Hguard. destruct Hguard as [Hc Hm].
      cbn [privateInvestments setPrivateInvestments setPrivateCommitment
           setPrivateStartMonth].
      apply Forall_app. split; [exact Hold|].
      constructor; [|constructor].
      exists evs, []. now repeat split.
    + cbn [step]. unfold click_remove.
      cbn [privateInvestments setPrivateInvestments].
      apply Forall_filter_from, Hold.
Qed.

(** C6, as stated, fails: Add accepts -5 as commitment and -3 as start
    month, and the request carries that entry. *)
Lemma C6_negative_commitment_is_sent :
  exists body,
    requests_after
      [ChangePrivateCommitment "-5"; ChangePrivateStartMonth "-3"; ClickAdd]
      backend_up
    = [(simulate_url, body)]
    /\ field "private_commitments" body
       = JArray [JObject [ ("commitment", JNumber (Num (-5 # 1)));
                           ("start_month", JNumber (Num (-3 # 1))) ]]
    /\ spec_commitment_valid
         (JObject [ ("commitment", JNumber (Num (-5 # 1)));
                    ("start_month", JNumber (Num (-3 # 1))) ]) = false.
Proof.
  eexists. split; [apply requests_after_eq|].
  split; reflexivity.
Qed.

(** C6, amended: after any sequence of events, every entry of
    [private_commitments] in the request is
    [{commitment: parseFloat(c), start_month: parseInt(m)}] for two
    non-empty strings [c] and [m] that were in the inputs when Add was
    clicked: there is an Add click among the events at which the two
    inputs held [c] and [m]. Add checks that the inputs are not empty
    and nothing about the sign of the numbers. *)
Theorem C6_entries_are_parsed_nonempty_inputs (evs : list Event)
    (backend : string -> JsValue -> Exn + JsValue) :
  exists body entries,
    requests_after evs backend = [(simulate_url, body)]
    /\ field "private_commitments" body = JArray entries
    /\ Forall (added_by_click evs) entries.
Proof.
  exists (sent_body (run_events evs initial_state)),
         (privateInvestments (run_events evs initial_state)).
  split; [apply requests_after_eq|]. split; [reflexivity|].
  apply entries_added_by_click.
Qed.

(** ** The uploaded returns *)

Lemma row_is_clean_complete (row : Fields) :
  row_is_clean row = true <-> spec_row_complete row.
Proof.
  unfold row_is_clean, spec_row_complete, Object_values.
  rewrite forallb_forall. split.
  - intros H k v Hin.
    specialize (H v (in_map snd row (k, v) Hin)).
    apply andb_true_iff in H. destruct H as [Hnull Hempty].
    split; intros ->; discriminate.
  - intros H v Hin. apply in_map_iff in Hin.
    destruct Hin as ([k v'] & Hv & Hin). cbn in Hv. subst v'.
    destruct (H k v Hin) as [Hnull Hempty].
    destruct v as [| |b|n|s|items|fields]; try reflexivity.
    + contradiction.
    + cbn. destruct (String.eqb_spec s EmptyString); [subst; contradiction|reflexivity].
Qed.

Lemma omit_date_removed (row : Fields) : spec_date_removed row (omit "Date" row).
Proof.
  induction row as [|[k v] row IH]; cbn.
  - constructor.
  - destruct (String.eqb_spec k "Date") as [->|Hne]; cbn.
    + now constructor.
    + now constructor.
Qed.

Lemma filter_map_retained (rows : list Fields) :
  spec_retained rows (map (fun row => omit "Date" row) (filter row_is_clean rows)).
Proof.
  induction rows as [|row rows IH]; cbn.
  - constructor.
  - destruct (row_is_clean row) eqn:Hclean; cbn.
    + apply retained_keep; [now apply row_is_clean_complete| |exact IH].
      apply omit_date_removed.
    + apply retained_drop; [|exact IH].
      intro Hc. apply row_is_clean_complete in Hc. congruence.
Qed.

Lemma date_removed_functional (row a : Fields) :
  spec_date_removed row a -> forall b, spec_date_removed row b -> a = b.
Proof.
  induction 1 as [|v row a Ha IH|k v row a Hk Ha IH]; intros b Hb.
  - now inversion Hb.
  - inversion Hb; subst.
    + now apply IH.
    + congruence.
  - inversion Hb; subst.
    + congruence.
    + f_equal. now apply IH.
Qed.

Lemma retained_functional (rows out : list Fields) :
  spec_retained rows out -> forall out', spec_retained rows out' -> out = out'.
Proof.
  induction 1 as [|row row' rows out Hc Hd H IH|row rows out Hn H IH];
    intros out' H'.
  - now inversion H'.
  - inversion H'; subst.
    + f_equal; [eapply date_removed_functional; eassumption|now apply IH].
    + contradiction.
  - inversion H'; subst.
    + contradiction.
    + now apply IH.
Qed.

(** C10: for every parsed upload, [handleCSVUpload] stores in
    [returnsData] exactly the rows whose every value is neither null nor
    the empty string, in file order, each without its Date column; the
    other rows are dropped; with no file chosen the state is untouched. *)
Theorem C10_upload_keeps_complete_rows_without_date (file : CsvFile)
    (st : AppState) :
  (exists out,
      returnsData (handleCSVUpload (Some file) st) = JArray (map JObject out)
      /\ spec_retained (parsed_data file) out
      /\ (forall out', spec_retained (parsed_data file) out' -> out' = out))
  /\ csvFilename (handleCSVUpload (Some file) st) = file_name file
  /\ handleCSVUpload None st = st.
Proof.
  split; [|split; reflexivity].
  exists (stored_rows file). split; [reflexivity|]. split.
  - apply filter_map_retained.
  - intros out' H'. symmetry.
    exact (retained_functional _ _ (filter_map_retained _) _ H').
Qed.

Lemma step_returnsData (st : AppState) (ev : Event) :
  returnsData (step st ev)
  = match ev with
    | ChangeCsvFile (Some f) => JArray (map JObject (stored_rows f))
    | _ => returnsData st
    end.
Proof.
  destruct ev as [v|file|v|v|v| |idx|backend]; cbn [step]; try reflexivity.
  - destruct file; reflexivity.
  - unfold click_add. now destruct (_ && _).
  - destruct (loading st); [reflexivity|].
    apply (run_simulation_inputs backend st).
Qed.

Lemma run_events_returnsData (evs : list Event) :
  forall (st : AppState) (acc : option CsvFile),
    returnsData st
    = match acc with
      | Some f => JArray (map JObject (stored_rows f))
      | None => JNull
      end ->
    returnsData (run_events evs st)
    = match fold_left (fun acc ev => match ev with
                                     | ChangeCsvFile (Some f) => Some f
                                     | _ => acc
                                     end) evs acc with
      | Some f => JArray (map JObject (stored_rows f))
      | None => JNull
      end.
Proof.
  unfold run_events.
  induction evs as [|ev evs IH]; intros st acc Hst; cbn [fold_left].
  - exact Hst.
  - apply IH. rewrite step_returnsData.
    destruct ev as [v|[f|]|v|v|v| |idx|backend]; try exact Hst. reflexivity.
Qed.

Lemma omit_has_no_key (k : string) (row : Fields) : has_key k (omit k row) = false.
Proof.
  unfold has_key, omit.
  induction row as [|[k' v] row IH]; cbn; [reflexivity|].
  destruct (String.eqb_spec k' k) as [->|Hne]; cbn; [exact IH|].
  destruct (String.eqb_spec k' k); [contradiction|exact IH].
Qed.

(** C3, as stated, fails on both counts: after an upload the request
    carries an array of row objects, which is not a mapping from asset to
    series; and with no upload the field is present, not absent. *)
Lemma C3_returns_data_is_rows_or_default :
  (exists body,
      requests_after [ChangeCsvFile (Some sample_csv)] backend_up
      = [(simulate_url, body)]
      /\ field "returns_data" body
         = JArray [JObject [ ("SPY", JNumber (Num (1 # 100)));
                             ("TLT", JNumber (Num (5 # 1000))) ]]
      /\ spec_returns_mapping (field "returns_data" body) = false)
  /\ (exists body,
         requests_after [] backend_up = [(simulate_url, body)]
         /\ has_field "returns_data" body = true
         /\ field "returns_data" body = default_returns).
Proof.
  split; eexists; (split; [apply requests_after_eq|]); split; reflexivity.
Qed.

(** C3, amended: the [returns_data] field is always present. Before any
    upload it is the fixed mapping of SPY to 120 returns of 0.01 and TLT
    to 120 returns of 0.005, which has the mapping shape. After an
    upload it is the array of the rows kept from the last uploaded file,
    one object per row from column name to value, without the Date
    column. *)
Theorem C3_returns_data_always_present (evs : list Event)
    (backend : string -> JsValue -> Exn + JsValue) :
  exists body,
    requests_after evs backend = [(simulate_url, body)]
    /\ has_field "returns_data" body = true
    /\ match last_upload evs with
       | None =>
           field "returns_data" body = default_returns
           /\ default_returns
              = JObject [ ("SPY", JArray (repeat (JNumber (Num (1 # 100))) 120));
                          ("TLT", JArray (repeat (JNumber (Num (5 # 1000))) 120)) ]
           /\ spec_returns_mapping default_returns = true
       | Some f =>
           exists rows,
             field "returns_data" body = JArray (map JObject rows)
             /\ spec_retained (parsed_data f) rows
             /\ Forall (fun row => has_key "Date" row = false) rows
       end.
Proof.
  eexists. split; [apply requests_after_eq|]. split; [reflexivity|].
  pose proof (run_events_returnsData evs initial_state None eq_refl) as Hrd.
  fold (last_upload evs) in Hrd.
  unfold sent_body, request_body. cbn [field get lookup String.eqb Ascii.eqb Bool.eqb].
  rewrite Hrd.
  destruct (last_upload evs) as [f|].
  - exists (stored_rows f). split; [reflexivity|]. split.
    + apply filter_map_retained.
    + unfold stored_rows. apply Forall_map, Forall_forall.
      intros row _. apply omit_has_no_key.
  - split; [reflexivity|]. split; [reflexivity|]. vm_compute. reflexivity.
Qed.

(** ** The weights object *)

Lemma lookup_app (k : string) (fs gs : Fields) :
  lookup k (fs ++ gs)
  = match lookup k fs with Some v => Some v | None => lookup k gs end.
Proof.
  induction fs as [|[k' v] fs IH]; cbn; [reflexivity|].
  destruct (String.eqb k' k); [reflexivity|exact IH].
Qed.

Lemma lookup_replace_same (k : string) (v : JsValue) (fs : Fields) :
  has_key k fs = true -> lookup k (replace k v fs) = Some v.
Proof.
  unfold has_key. induction fs as [|[k' v'] fs IH]; cbn; [discriminate|].
  destruct (String.eqb k' k) eqn:E; cbn; rewrite E; [reflexivity|exact IH].
Qed.

Lemma lookup_replace_other (k k' : string) (v : JsValue) (fs : Fields) :
  k' <> k -> lookup k (replace k' v fs) = lookup k fs.
Proof.
  intro Hne. induction fs as [|[k0 v0] fs IH]; cbn; [reflexivity|].
  destruct (String.eqb_spec k0 k') as [->|H0]; cbn.
  - destruct (String.eqb_spec k' k); [contradiction|reflexivity].
  - destruct (String.eqb k0 k); [reflexivity|exact IH].
Qed.

Lemma lookup_assign (k k' : string) (v : JsValue) (fs : Fields) :
  k <> "__proto__" ->
  lookup k (assign k' v fs) = if String.eqb k' k then Some v else lookup k fs.
Proof.
  intro Hproto. unfold assign.
  destruct (String.eqb_spec k' "__proto__") as [->|Hk'].
  - destruct (String.eqb_spec "__proto__" k); [congruence|reflexivity].
  - destruct (String.eqb_spec k' k) as [->|Hne].
    + destruct (has_key k fs) eqn:Hhas.
      * now apply lookup_replace_same.
      * rewrite lookup_app. unfold has_key in Hhas.
        destruct (lookup k fs); [discriminate|].
        cbn. now rewrite String.eqb_refl.
    + destruct (has_key k' fs).
      * now apply lookup_replace_other.
      * rewrite lookup_app. destruct (lookup k fs); [reflexivity|].
        cbn. destruct (String.eqb_spec k' k); [contradiction|reflexivity].
Qed.

Lemma has_key_assign_proto (k : string) (v : JsValue) (fs : Fields) :
  has_key "__proto__" fs = false ->
  has_key "__proto__" (assign k v fs) = false.
Proof.
  intro Hfs. unfold assign.
  destruct (String.eqb_spec k "__proto__") as [->|Hk]; [exact Hfs|].
  destruct (has_key k fs); unfold has_key in *.
  - now rewrite lookup_replace_other.
  - rewrite lookup_app. destruct (lookup "__proto__" fs); [discriminate|].
    cbn. destruct (String.eqb_spec k "__proto__"); [contradiction|reflexivity].
Qed.

Lemma find_snoc {A : Type} (f : A -> bool) (xs : list A) (x : A) :
  find f (xs ++ [x])
  = match find f xs with
    | Some y => Some y
    | None => if f x then Some x else None
    end.
Proof.
  induction xs as [|y xs IH]; cbn; [reflexivity|].
  destruct (f y); [reflexivity|exact IH].
Qed.

(** The last pair with a given symbol decides the value stored for it. *)
Lemma lookup_weights_of_pairs (k : string) (pairs : list string) :
  k <> "__proto__" ->
  forall weights,
    lookup k (weights_of_pairs pairs weights)
    = match find (fun pair => String.eqb (pair_symbol pair) k) (rev pairs) with
      | Some p => Some (JNumber (pair_weight p))
      | None => lookup k weights
      end.
Proof.
  intro Hproto. unfold weights_of_pairs.
  induction pairs as [|pair pairs IH]; intro weights; cbn [fold_left rev].
  - reflexivity.
  - rewrite IH, find_snoc.
    destruct (find _ (rev pairs)); [reflexivity|].
    rewrite (lookup_assign k _ _ _ Hproto).
    now destruct (String.eqb (pair_symbol pair) k).
Qed.

Lemma weights_of_pairs_no_proto (pairs : list string) :
  forall weights,
    has_key "__proto__" weights = false ->
    has_key "__proto__" (weights_of_pairs pairs weights) = false.
Proof.
  unfold weights_of_pairs.
  induction pairs as [|pair pairs IH]; intros weights Hw; cbn [fold_left].
  - exact Hw.
  - apply IH. now apply has_key_assign_proto.
Qed.

(** C4, as stated, fails: weights that sum to 0.5, and weights with a
    negative entry, are posted as they are; nothing is rejected. *)
Lemma C4_invalid_weights_are_sent :
  (exists body,
      requests_after [ChangePublicWeights "SPY:0.5"] backend_up
      = [(simulate_url, body)]
      /\ field "public_weights" body = JObject [("SPY", JNumber (Num (1 # 2)))]
      /\ spec_weights_valid (field "public_weights" body) = false)
  /\ (exists body,
         requests_after [ChangePublicWeights "SPY:-1, TLT:2"] backend_up
         = [(simulate_url, body)]
         /\ field "public_weights" body
            = JObject [ ("SPY", JNumber (Num (-1 # 1)));
                        ("TLT", JNumber (Num (2 # 1))) ]
         /\ spec_weights_valid (field "public_weights" body) = false).
Proof.
  split; eexists; (split; [apply requests_after_eq|]); split; reflexivity.
Qed.

(** C4, amended: for every weights input the request is posted, and its
    [public_weights] object maps each trimmed symbol to [parseFloat] of
    the text after the symbol's colon, the last pair of a repeated symbol
    deciding; a symbol that no pair names is absent; the values are not
    checked for sign or sum. *)
Theorem C4_weights_are_parsed_pairs (evs : list Event)
    (backend : string -> JsValue -> Exn + JsValue) :
  let input := publicWeightsInput (run_events evs initial_state) in
  exists body weights,
    requests_after evs backend = [(simulate_url, body)]
    /\ field "public_weights" body = JObject weights
    /\ (forall k,
           k <> "__proto__" ->
           get k weights
           = match find (fun pair => String.eqb (pair_symbol pair) k)
                        (rev (split "," input)) with
             | Some p => JNumber (pair_weight p)
             | None => JUndefined
             end)
    /\ has_key "__proto__" weights = false.
Proof.
  cbv zeta.
  exists (sent_body (run_events evs initial_state)),
         (weights_of_input (publicWeightsInput (run_events evs initial_state))).
  split; [apply requests_after_eq|]. split; [reflexivity|]. split.
  - intros k Hk. unfold get, weights_of_input.
    rewrite (lookup_weights_of_pairs k _ Hk).
    destruct (find _ _); reflexivity.
  - now apply weights_of_pairs_no_proto.
Qed.

(** ** The engine of the specification *)

Section EngineProperties.

Import Engine.

Variable Source : Type.
Variable from_seed : Z -> Source.
Variable subseed : Z -> nat -> Z.
Variable sleeve_flows : Request -> Source -> list MonthFlows.
Variable Metrics : Type.
Variable metrics_of : list Q -> Metrics.
Variable Statistics : Type.
Variable reduce : list (list SimulationState) -> Statistics.

Local Notation "'run_path'" :=
  (Engine.run_path Source from_seed subseed sleeve_flows Metrics metrics_of).
Local Notation "'simulate'" :=
  (Engine.simulate Source from_seed subseed sleeve_flows Metrics metrics_of
                   Statistics reduce).

Lemma aggregate_total_is_sum (flows : list MonthFlows) :
  forall t prev, Forall total_is_sum (fst (aggregate t prev flows)).
Proof.
  induction flows as [|m flows IH]; intros t prev; cbn [aggregate].
  - constructor.
  - destruct (aggregate_month t prev m) as [st ws] eqn:Em.
    specialize (IH (S t) st).
    destruct (aggregate (S t) st flows) as [sts ws'].
    cbn [fst] in *. constructor; [|exact IH].
    unfold aggregate_month in Em. injection Em as <- _. reflexivity.
Qed.

Lemma run_path_total_is_sum (req : Request) (master : Z) (idx : nat) :
  Forall total_is_sum (path_states Metrics (run_path req master idx)).
Proof.
  unfold Engine.run_path.
  pose proof (aggregate_total_is_sum
                (sleeve_flows req (from_seed (subseed master idx)))
                0 (initial_sleeves req)) as H.
  destruct (aggregate 0 _ _) as [sts ws]. exact H.
Qed.

Lemma completed_path_map (f : nat -> PathResult Metrics) (schedule : list nat)
    (i : nat) :
  completed_path Metrics i (map (fun j => (j, f j)) schedule)
  = if in_dec Nat.eq_dec i schedule then Some (f i) else None.
Proof.
  induction schedule as [|j schedule IH]; cbn [map completed_path].
  - reflexivity.
  - destruct (Nat.eqb_spec j i) as [->|Hne].
    + destruct (in_dec Nat.eq_dec i (i :: schedule)) as [_|Hn];
        [reflexivity|]. exfalso. apply Hn. now left.
    + rewrite IH.
      destruct (in_dec Nat.eq_dec i schedule) as [Hin|Hn];
        destruct (in_dec Nat.eq_dec i (j :: schedule)) as [Hin'|Hn'];
        try reflexivity.
      * exfalso. apply Hn'. now right.
      * destruct Hin' as [->|Hin']; contradiction.
Qed.

Lemma collect_in (f : nat -> PathResult Metrics) (schedule : list nat)
    (n : nat) (p : PathResult Metrics) :
  In p (collect Metrics n (map (fun j => (j, f j)) schedule)) ->
  exists i, p = f i.
Proof.
  unfold collect. intro Hin. apply in_flat_map in Hin.
  destruct Hin as (i & _ & Hin). rewrite completed_path_map in Hin.
  destruct (in_dec Nat.eq_dec i schedule); [|contradiction].
  destruct Hin as [<-|[]]. now exists i.
Qed.

(** With every index scheduled, the reduction sees the paths in index
    order, whatever the order of the schedule. *)
Lemma collect_full_schedule (f : nat -> PathResult Metrics)
    (schedule : list nat) (n : nat) :
  Permutation schedule (seq 0 n) ->
  collect Metrics n (map (fun j => (j, f j)) schedule) = map f (seq 0 n).
Proof.
  intro Hperm. unfold collect.
  assert (Hall : forall i, In i (seq 0 n) -> In i schedule).
  { intros i Hi. apply (Permutation_in i (Permutation_sym Hperm) Hi). }
  clear Hperm.
  induction (seq 0 n) as [|i l IH]; cbn [flat_map map]; [reflexivity|].
  rewrite completed_path_map.
  destruct (in_dec Nat.eq_dec i schedule) as [_|Hn].
  - cbn [app]. f_equal. apply IH. intros j Hj. apply Hall. now right.
  - exfalso. apply Hn, Hall. now left.
Qed.

(** C1: in every result of the engine, every recorded state of every
    path has [total] equal to [public + private + cash], exactly. *)
Theorem C1_total_is_sum_of_sleeves (entropy : Z) (schedule : list nat)
    (req : Request) (res : SimulationResult Metrics Statistics)
    (p : PathResult Metrics) (t : nat) (s : SimulationState)
    (Hrun : simulate entropy schedule req = inr res)
    (Hpath : In p (portfolio Metrics Statistics res))
    (Hmonth : nth_error (path_states Metrics p) t = Some s) :
  total s = (public s + private s + cash s)%Q.
Proof.
  unfold Engine.simulate in Hrun.
  destruct (validate req); [discriminate|].
  injection Hrun as <-. cbn [portfolio] in Hpath.
  apply collect_in in Hpath. destruct Hpath as [i ->].
  pose proof (run_path_total_is_sum
                req (match seed req with Some s0 => s0 | None => entropy end) i)
    as Hall.
  rewrite Forall_forall in Hall. apply Hall.
  eapply nth_error_In, Hmonth.
Qed.

(** C5: two runs of the same request with the same seed give the same
    result, whatever each run's ambient entropy and whatever the order
    in which its workers complete the paths. *)
Theorem C5_same_request_and_seed_same_result (req : Request) (s : Z)
    (entropy1 entropy2 : Z) (schedule1 schedule2 : list nat)
    (Hseed : seed req = Some s)
    (Hsched1 : Permutation schedule1 (seq 0 (num_paths req)))
    (Hsched2 : Permutation schedule2 (seq 0 (num_paths req))) :
  simulate entropy1 schedule1 req = simulate entropy2 schedule2 req.
Proof.
  unfold Engine.simulate. rewrite Hseed.
  destruct (validate req); [reflexivity|].
  rewrite (collect_full_schedule _ _ _ Hsched1).
  rewrite (collect_full_schedule _ _ _ Hsched2).
  reflexivity.
Qed.

End EngineProperties.

(** Path 1 of the sample run, month 2: the call of 200000 meets 300 of
    cash and a public sleeve of 96100, the shortfall is recorded, and the
    total is still the sum of the three sleeves. *)
Lemma C1_total_is_sum_witness :
  exists res p s,
    Engine.sample_simulate 0 [1; 0] (Engine.sample_request (Some 42%Z)) = inr res
    /\ In p (Engine.portfolio Q nat res)
    /\ nth_error (Engine.path_states Q p) 2 = Some s
    /\ Engine.path_warnings Q p <> []
    /\ Engine.total s
       = (Engine.public s + Engine.private s + Engine.cash s)%Q.
Proof.
  eexists. eexists. eexists.
  split; [vm_compute; reflexivity|].
  split; [right; left; reflexivity|].
  split; [reflexivity|].
  split; [discriminate|].
  eapply (C1_total_is_sum_of_sleeves Z (fun z => z) Engine.sample_subseed
            Engine.sample_flows Q Engine.sample_metrics nat Engine.sample_reduce
            0%Z [1; 0] (Engine.sample_request (Some 42%Z)) _ _ 2).
  - vm_compute. reflexivity.
  - right; left; reflexivity.
  - reflexivity.
Defined.

(** The sample request with seed 42, run once with entropy 1 and the
    paths completing in order, once with entropy 2 and the paths
    completing in reverse. *)
Lemma C5_same_seed_witness :
  Engine.seed (Engine.sample_request (Some 42%Z)) = Some 42%Z
  /\ Permutation [0; 1] (seq 0 (Engine.num_paths (Engine.sample_request (Some 42%Z))))
  /\ Permutation [1; 0] (seq 0 (Engine.num_paths (Engine.sample_request (Some 42%Z))))
  /\ Engine.sample_simulate 1 [0; 1] (Engine.sample_request (Some 42%Z))
     = Engine.sample_simulate 2 [1; 0] (Engine.sample_request (Some 42%Z)).
Proof.
  split; [reflexivity|].
  split; [apply Permutation_refl|].
  split; [apply perm_swap|].
  apply (C5_same_request_and_seed_same_result Z (fun z => z) Engine.sample_subseed
           Engine.sample_flows Q Engine.sample_metrics nat Engine.sample_reduce
           (Engine.sample_request (Some 42%Z)) 42%Z 1%Z 2%Z [0; 1] [1; 0]).
  - reflexivity.
  - apply Permutation_refl.
  - apply perm_swap.
Defined.

(** Without a seed the two runs above differ: the seed is what makes the
    result reproducible. *)
Example unseeded_runs_differ :
  Engine.sample_simulate 1 [0; 1] (Engine.sample_request None)
  <> Engine.sample_simulate 2 [0; 1] (Engine.sample_request None).
Proof. vm_compute. discriminate. Qed.

(** * Further properties of the handlers *)

(** ** handleSimulation, whatever the backend answers *)


(** X2: the user is alerted, and the error logged, exactly when the
    request is rejected or the response body is [null] or [undefined];
    then [result] is left null. *)
Theorem alert_exactly_on_failure
    (backend : string -> JsValue -> Exn + JsValue) (st : AppState) :
  let w := run_simulation backend st in
  let failed :=
    match backend simulate_url (sent_body st) with
    | inl _ | inr JUndefined | inr JNull => true
    | inr _ => false
    end in
  (failed = true ->
     alerts w = ["Error calling backend. Check terminal/console."]
     /\ console w = ["Error calling backend:"]
     /\ result (store w) = JNull)
  /\ (failed = false -> alerts w = [] /\ console w = []).
Proof.
  unfold run_simulation. rewrite handleSimulation_unfold. cbn zeta.
  destruct (backend simulate_url (sent_body st)) as [e|data];
    [|destruct data]; cbn; split; intro H; try discriminate H;
    repeat split.
Qed.

Lemma alert_exactly_on_failure_witness :
  (let w := run_simulation backend_down initial_state in
   alerts w = ["Error calling backend. Check terminal/console."]
   /\ console w = ["Error calling backend:"]
   /\ result (store w) = JNull)
  /\ (let w := run_simulation backend_up initial_state in
      alerts w = [] /\ console w = []).
Proof.
  split.
  - apply (proj1 (alert_exactly_on_failure backend_down initial_state)).
    reflexivity.
  - apply (proj2 (alert_exactly_on_failure backend_up initial_state)).
    reflexivity.
Defined.

(** X3: when the backend answers with a body that is neither [null] nor
    [undefined], [result] becomes the body's [result] property; a body
    without that property, or one that is not an object, leaves [result]
    undefined and the performance block hidden, with no alert. *)
Theorem result_is_the_body_result
    (backend : string -> JsValue -> Exn + JsValue) (st : AppState)
    (data : JsValue)
    (Hanswer : backend simulate_url (sent_body st) = inr data)
    (Hdata : is_null data = false /\ data <> JUndefined) :
  let w := run_simulation backend st in
  result (store w) = field "result" data
  /\ (has_field "result" data = false ->
      result (store w) = JUndefined
      /\ shows_performance (store w) = false
      /\ alerts w = []).
Proof.
  unfold run_simulation. rewrite handleSimulation_unfold. cbn zeta.
  rewrite Hanswer. destruct Hdata as [Hnull Hundef].
  destruct data as [| |b|n|s|items|fs]; try discriminate Hnull;
    try contradiction; cbn; (split; [reflexivity|]); intro Hno;
    try (repeat split; fail).
  unfold has_key in Hno. unfold get.
  destruct (lookup "result" fs); [discriminate|]. repeat split.
Qed.

Lemma result_is_the_body_result_witness :
  let backend := fun (_ : string) (_ : JsValue) =>
                   inr (JObject [("status", JString "ok")]) : Exn + JsValue in
  let w := run_simulation backend initial_state in
  result (store w) = JUndefined
  /\ shows_performance (store w) = false
  /\ alerts w = [].
Proof.
  intros backend w.
  assert (Hanswer : backend simulate_url (sent_body initial_state)
                    = inr (JObject [("status", JString "ok")]))
    by reflexivity.
  assert (Hdata : is_null (JObject [("status", JString "ok")]) = false
                  /\ JObject [("status", JString "ok")] <> JUndefined)
    by (split; [reflexivity|discriminate]).
  apply (proj2 (result_is_the_body_result backend initial_state _ Hanswer Hdata)).
  reflexivity.
Defined.

(** X4: [handleSimulation] writes [result] and [loading] and nothing
    else: the inputs, the uploaded returns, the file name and the list of
    investments are as they were. *)
Theorem handleSimulation_keeps_inputs
    (backend : string -> JsValue -> Exn + JsValue) (st : AppState) :
  let st' := store (run_simulation backend st) in
  setLoading (loading st) (setResult (result st) st') = st.
Proof.
  unfold run_simulation. rewrite handleSimulation_unfold. cbn zeta.
  destruct st.
  destruct (backend simulate_url _) as [e|data]; [|destruct data]; reflexivity.
Qed.

(** X5: a second click on Run with the inputs untouched posts the same
    body as the first, whatever the first answer was. *)
Theorem rerun_posts_same_body
    (backend1 backend2 : string -> JsValue -> Exn + JsValue) (st : AppState) :
  posted (run_simulation backend2 (store (run_simulation backend1 st)))
  = posted (run_simulation backend1 st).
Proof.
  rewrite !posted_run_simulation.
  pose proof (run_simulation_inputs backend1 st) as H. cbv zeta in H.
  destruct H as (Hcap & Hw & Hrd & _ & _ & Hinv).
  unfold sent_body, request_body. now rewrite Hcap, Hw, Hrd, Hinv.
Qed.

(** ** The Add and Remove buttons, and the list they render *)

(** X6: a double click on Add adds one entry: the first click empties
    both inputs, so the second finds the guard false. *)
Theorem click_add_twice_adds_once (st : AppState) :
  click_add (click_add st) = click_add st.
Proof.
  destruct (truthy (JString (privateCommitment st))
            && negb (String.eqb (privateStartMonth st) EmptyString)) eqn:Hguard.
  - apply click_add_empty_input. left.
    unfold click_add. rewrite Hguard. reflexivity.
  - assert (E : click_add st = st) by (unfold click_add; now rewrite Hguard).
    rewrite E. exact E.
Qed.

(** X7: Add followed by Remove of the last index gives back the list
    as it was before the Add. *)
Theorem add_then_remove_last (st : AppState)
    (Hc : privateCommitment st <> EmptyString)
    (Hm : privateStartMonth st <> EmptyString) :
  privateInvestments
    (click_remove (List.length (privateInvestments st)) (click_add st))
  = privateInvestments st.
Proof.
  unfold click_remove. cbn [privateInvestments setPrivateInvestments].
  rewrite Array_filter_skip_index.
  unfold click_add. rewrite (click_add_guard st Hc Hm).
  cbn [privateInvestments setPrivateInvestments setPrivateCommitment
       setPrivateStartMonth].
  rewrite firstn_app, Nat.sub_diag, firstn_all. cbn [firstn].
  rewrite skipn_all2 by (rewrite length_app; cbn; lia).
  now rewrite !app_nil_r.
Qed.

Lemma add_then_remove_last_witness :
  let st := run_events
              [ ChangePrivateCommitment "5000"; ChangePrivateStartMonth "0"; ClickAdd;
                ChangePrivateCommitment "900"; ChangePrivateStartMonth "24" ]
              initial_state in
  privateInvestments (click_remove 1 (click_add st))
  = [newInvestment "5000" "0"].
Proof.
  intro st.
  assert (Hc : privateCommitment st <> EmptyString) by (vm_compute; discriminate).
  assert (Hm : privateStartMonth st <> EmptyString) by (vm_compute; discriminate).
  exact (add_then_remove_last st Hc Hm).
Defined.

(** X8: Remove with an index at or past the end of the list removes
    nothing. *)
Theorem remove_past_the_end (st : AppState) (idx : nat)
    (Hidx : List.length (privateInvestments st) <= idx) :
  privateInvestments (click_remove idx st) = privateInvestments st.
Proof.
  unfold click_remove. cbn [privateInvestments setPrivateInvestments].
  rewrite Array_filter_skip_index.
  rewrite firstn_all2 by exact Hidx.
  rewrite skipn_all2 by lia. apply app_nil_r.
Qed.

(** A list of two investments, and Remove at index 2 and at index 7:
    both entries stay. *)
Lemma remove_past_the_end_witness :
  let st := run_events
              [ ChangePrivateCommitment "5000"; ChangePrivateStartMonth "0"; ClickAdd;
                ChangePrivateCommitment "7000"; ChangePrivateStartMonth "12"; ClickAdd ]
              initial_state in
  privateInvestments st = [newInvestment "5000" "0"; newInvestment "7000" "12"]
  /\ privateInvestments (click_remove 2 st)
     = [newInvestment "5000" "0"; newInvestment "7000" "12"]
  /\ privateInvestments (click_remove 7 st)
     = [newInvestment "5000" "0"; newInvestment "7000" "12"].
Proof.
  intro st.
  assert (Hlist : privateInvestments st
                  = [newInvestment "5000" "0"; newInvestment "7000" "12"])
    by reflexivity.
  split; [exact Hlist|]. split.
  - rewrite (remove_past_the_end st 2); [exact Hlist|]. rewrite Hlist. cbn. lia.
  - rewrite (remove_past_the_end st 7); [exact Hlist|]. rewrite Hlist. cbn. lia.
Defined.

Lemma map_from_indices {A B : Type} (f : A -> nat -> B) (g : B -> nat)
    (Hg : forall x i, g (f x i) = i) (xs : list A) :
  forall k, map g (map_from f k xs) = seq k (List.length xs).
Proof.
  induction xs as [|x xs IH]; intro k; cbn [map_from map seq List.length].
  - reflexivity.
  - now rewrite Hg, IH.
Qed.

Lemma map_from_values {A B C : Type} (f : A -> nat -> B) (g : B -> C)
    (h : A -> C) (Hg : forall x i, g (f x i) = h x) (xs : list A) :
  forall k, map g (map_from f k xs) = map h xs.
Proof.
  induction xs as [|x xs IH]; intro k; cbn [map_from map].
  - reflexivity.
  - now rewrite Hg, IH.
Qed.

(** X9: the list is rendered only when it is not empty, with one item
    per investment, and the Remove buttons close over the indices 0 to
    n - 1 in order; so a click on any rendered Remove button removes
    exactly one entry. *)
Theorem rendered_remove_buttons_are_in_range (st : AppState) :
  match render_investments st with
  | None => privateInvestments st = []
  | Some items =>
      privateInvestments st <> []
      /\ map item_remove_idx items = seq 0 (List.length (privateInvestments st))
      /\ Forall (fun item =>
                   S (List.length
                        (privateInvestments (click_remove (item_remove_idx item) st)))
                   = List.length (privateInvestments st)) items
  end.
Proof.
  unfold render_investments.
  destruct (Nat.ltb_spec 0 (List.length (privateInvestments st))) as [Hpos|Hzero].
  - assert (Hidx : map item_remove_idx
                     (map_from (fun inv idx =>
                                  mkInvestmentItem (field "commitment" inv)
                                                   (field "start_month" inv) idx)
                               0 (privateInvestments st))
                   = seq 0 (List.length (privateInvestments st))).
    { apply map_from_indices. reflexivity. }
    split; [|split].
    + intro Hnil. rewrite Hnil in Hpos. cbn in Hpos. lia.
    + exact Hidx.
    + apply Forall_forall. intros item Hin.
      assert (Hlt : item_remove_idx item < List.length (privateInvestments st)).
      { apply (in_map item_remove_idx) in Hin. rewrite Hidx in Hin.
        apply in_seq in Hin. lia. }
      unfold click_remove. cbn [privateInvestments setPrivateInvestments].
      rewrite Array_filter_skip_index, length_app, length_firstn, length_skipn.
      lia.
  - destruct (privateInvestments st); [reflexivity|cbn in Hzero; lia].
Qed.

(** X10: the items of the rendered list show, in order, the
    [commitment] and the [start_month] of the entries the request
    carries. *)
Theorem rendered_list_matches_request (st : AppState)
    (backend : string -> JsValue -> Exn + JsValue) (items : list InvestmentItem)
    (Hrender : render_investments st = Some items) :
  exists body entries,
    posted (run_simulation backend st) = [(simulate_url, body)]
    /\ field "private_commitments" body = JArray entries
    /\ map item_commitment items = map (field "commitment") entries
    /\ map item_start_month items = map (field "start_month") entries.
Proof.
  exists (sent_body st), (privateInvestments st).
  split; [apply posted_run_simulation|]. split; [reflexivity|].
  unfold render_investments in Hrender.
  destruct (0 <? List.length (privateInvestments st)); [|discriminate].
  injection Hrender as <-.
  split; apply map_from_values; reflexivity.
Qed.

Lemma rendered_list_matches_request_witness :
  let st := run_events
              [ ChangePrivateCommitment "5000"; ChangePrivateStartMonth "0"; ClickAdd ]
              initial_state in
  exists items,
    render_investments st = Some items
    /\ map item_commitment items = [JNumber (Num (5000 # 1))]
    /\ map item_start_month items = [JNumber (Num (0 # 1))].
Proof.
  intro st. eexists. split; [reflexivity|].
  destruct (rendered_list_matches_request st backend_up _ eq_refl)
    as (body & entries & Hposted & Hfield & Hc & Hm).
  rewrite posted_run_simulation in Hposted. injection Hposted as <-.
  cbn in Hfield. injection Hfield as <-.
  split; [exact Hc|exact Hm].
Defined.

(** ** [trim] and [split] *)

Lemma trimStart_trimStart (s : string) : trimStart (trimStart s) = trimStart s.
Proof.
  induction s as [|c s IH]; cbn [trimStart]; [reflexivity|].
  destruct (is_space c) eqn:Hc; [exact IH|]. cbn [trimStart]. now rewrite Hc.
Qed.

Lemma trimEnd_trimEnd (s : string) : trimEnd (trimEnd s) = trimEnd s.
Proof.
  induction s as [|c s IH]; cbn [trimEnd]; [reflexivity|].
  destruct (trimEnd s) as [|c' t] eqn:Ht.
  - destruct (is_space c) eqn:Hc; cbn [trimEnd]; [reflexivity|]. now rewrite Hc.
  - change (trimEnd (String c (String c' t))) with
      (match trimEnd (String c' t) with
       | EmptyString => if is_space c then EmptyString else String c EmptyString
       | t' => String c t'
       end).
    now rewrite IH.
Qed.

Lemma trimStart_trimEnd_trimStart (s : string) :
  trimStart (trimEnd (trimStart s)) = trimEnd (trimStart s).
Proof.
  induction s as [|c s IH]; cbn [trimStart]; [reflexivity|].
  destruct (is_space c) eqn:Hc; [exact IH|].
  cbn [trimEnd]. destruct (trimEnd s); rewrite ?Hc; cbn [trimStart];
    now rewrite Hc.
Qed.

Lemma trim_trim (s : string) : trim (trim s) = trim s.
Proof.
  unfold trim. now rewrite trimStart_trimEnd_trimStart, trimEnd_trimEnd.
Qed.

(** X11: [trim] leaves nothing to trim: trimming its result again, at
    the start, at the end or at both, changes nothing. *)
Theorem trim_strips_both_ends (s : string) :
  trimStart (trim s) = trim s
  /\ trimEnd (trim s) = trim s
  /\ trim (trim s) = trim s.
Proof.
  unfold trim. split; [|split].
  - apply trimStart_trimEnd_trimStart.
  - apply trimEnd_trimEnd.
  - now rewrite trimStart_trimEnd_trimStart, trimEnd_trimEnd.
Qed.

Lemma split_cons (sep : ascii) (s : string) :
  exists piece rest, split sep s = piece :: rest.
Proof.
  destruct (split sep s) as [|piece rest] eqn:E.
  - exfalso. exact (split_not_nil sep s E).
  - now exists piece, rest.
Qed.

Lemma concat_cons2 (sep x y : string) (l : list string) :
  String.concat sep (x :: y :: l)
  = String.append x (String.append sep (String.concat sep (y :: l))).
Proof. reflexivity. Qed.

(** X12: [split] cuts at every separator and only there: joining the
    pieces with the separator gives the string back, and no piece
    contains the separator. *)
Theorem split_join_round_trip (sep : ascii) (s : string) :
  String.concat (String sep EmptyString) (split sep s) = s
  /\ Forall (fun piece => has_char sep piece = false) (split sep s).
Proof.
  induction s as [|c s [IHjoin IHfree]]; cbn [split].
  - split; [reflexivity|]. constructor; [reflexivity|constructor].
  - destruct (split_cons sep s) as (piece & rest & E). rewrite E in *.
    destruct (Ascii.eqb_spec c sep) as [->|Hne].
    + split.
      * rewrite concat_cons2, IHjoin. reflexivity.
      * constructor; [reflexivity|exact IHfree].
    + pose proof (Forall_inv IHfree) as Hpiece.
      pose proof (Forall_inv_tail IHfree) as Hrest. cbn beta in Hpiece. split.
      * destruct rest as [|piece' rest'].
        -- cbn [String.concat] in *. now rewrite IHjoin.
        -- rewrite <- IHjoin at 1. reflexivity.
      * constructor; [|exact Hrest]. cbn [has_char].
        destruct (Ascii.eqb_spec c sep); [contradiction|exact Hpiece].
Qed.

Lemma split_without_separator (sep : ascii) (s : string) :
  has_char sep s = false -> split sep s = [s].
Proof.
  induction s as [|c s IH]; cbn [has_char split]; [reflexivity|].
  intro H. apply orb_false_iff in H. destruct H as [Hc Hs].
  rewrite Hc, (IH Hs). reflexivity.
Qed.

Lemma has_char_trimStart (c : ascii) (s : string) :
  has_char c s = false -> has_char c (trimStart s) = false.
Proof.
  induction s as [|c' s IH]; cbn [has_char trimStart]; [reflexivity|].
  intro H. destruct (is_space c'); [|exact H].
  apply orb_false_iff in H. now apply IH.
Qed.

Lemma has_char_trimEnd (c : ascii) (s : string) :
  has_char c s = false -> has_char c (trimEnd s) = false.
Proof.
  induction s as [|c' s IH]; cbn [has_char trimEnd]; [reflexivity|].
  intro H. apply orb_false_iff in H. destruct H as [Hc Hs].
  specialize (IH Hs).
  destruct (trimEnd s).
  - destruct (is_space c'); cbn [has_char]; [reflexivity|]. now rewrite Hc.
  - cbn [has_char] in *. now rewrite Hc, IH.
Qed.

(** ** The weights object, entry by entry *)

(** X13: a pair without a colon stores [NaN] under the trimmed pair:
    there is no second piece, and [parseFloat(undefined)] is [NaN]. *)
Theorem weight_without_colon_is_NaN (pair : string) (weights : Fields)
    (w : World) (Hcolon : has_char ":" pair = false) :
  add_weight pair weights w
  = (inr (assign (trim pair) (JNumber NaN) weights), w).
Proof.
  unfold add_weight.
  assert (Htrim : has_char ":" (trim pair) = false).
  { unfold trim. now apply has_char_trimEnd, has_char_trimStart. }
  rewrite (split_without_separator _ _ Htrim). cbn [hd_error parseFloat_opt].
  now rewrite trim_trim.
Qed.

Lemma weight_without_colon_witness :
  add_weight " SPY " [] (fresh_world initial_state)
  = (inr [("SPY", JNumber NaN)], fresh_world initial_state).
Proof.
  exact (weight_without_colon_is_NaN " SPY " [] (fresh_world initial_state)
           eq_refl).
Defined.

Lemma map_fst_replace (k : string) (v : JsValue) (fs : Fields) :
  map fst (replace k v fs) = map fst fs.
Proof.
  induction fs as [|[k' v'] fs IH]; cbn; [reflexivity|].
  destruct (String.eqb k' k); cbn; [reflexivity|now rewrite IH].
Qed.

Lemma has_key_false_not_in (k : string) (fs : Fields) :
  has_key k fs = false -> ~ In k (map fst fs).
Proof.
  unfold has_key. induction fs as [|[k' v'] fs IH]; cbn; [tauto|].
  destruct (String.eqb_spec k' k) as [->|Hne]; [discriminate|].
  intros H [Heq|Hin]; [contradiction|now apply IH].
Qed.

Lemma Forall_replace (P : string * JsValue -> Prop) (k : string) (v : JsValue)
    (fs : Fields) :
  P (k, v) -> Forall P fs -> Forall P (replace k v fs).
Proof.
  intros Hkv. induction 1 as [|[k' v'] fs Hx Hfs IH]; cbn; [constructor|].
  destruct (String.eqb_spec k' k) as [->|Hne]; constructor; assumption.
Qed.

(** What [o[k] = v] keeps: distinct keys, a property of every entry
    that the new entry has, and a size that grows by one at most. *)
Lemma assign_well_formed (P : string * JsValue -> Prop) (k : string)
    (v : JsValue) (fs : Fields) :
  P (k, v) -> NoDup (map fst fs) -> Forall P fs ->
  NoDup (map fst (assign k v fs))
  /\ Forall P (assign k v fs)
  /\ List.length (assign k v fs) <= S (List.length fs).
Proof.
  intros Hkv Hnd Hall. unfold assign.
  destruct (String.eqb k "__proto__"); [repeat split; auto|].
  destruct (has_key k fs) eqn:Hk.
  - rewrite map_fst_replace. split; [exact Hnd|]. split.
    + now apply Forall_replace.
    + rewrite <- (length_map fst (replace k v fs)), map_fst_replace, length_map.
      lia.
  - split; [|split].
    + rewrite map_app. cbn [map fst].
      apply NoDup_app; [exact Hnd|repeat constructor; intros []|].
      intros x Hx [<-|[]]. exact (has_key_false_not_in _ _ Hk Hx).
    + apply Forall_app. split; [exact Hall|]. now repeat constructor.
    + rewrite length_app. cbn. lia.
Qed.

Lemma weights_of_pairs_well_formed (pairs : list string) :
  forall weights,
    NoDup (map fst weights) -> Forall weight_entry_ok weights ->
    NoDup (map fst (weights_of_pairs pairs weights))
    /\ Forall weight_entry_ok (weights_of_pairs pairs weights)
    /\ List.length (weights_of_pairs pairs weights)
       <= List.length pairs + List.length weights.
Proof.
  unfold weights_of_pairs.
  induction pairs as [|pair pairs IH]; intros weights Hnd Hall;
    cbn [fold_left List.length].
  - repeat split; auto.
  - destruct (assign_well_formed weight_entry_ok (pair_symbol pair)
                (JNumber (pair_weight pair)) weights) as (Hnd' & Hall' & Hlen');
      try assumption.
    { split; [|reflexivity]. cbn [fst]. unfold pair_symbol.
      destruct (split ":" (trim pair)); [reflexivity|].
      apply trim_trim. }
    destruct (IH _ Hnd' Hall') as (H1 & H2 & H3).
    repeat split; try assumption. lia.
Qed.

(** X14: in every request, [public_weights] has one entry per distinct
    symbol, at most as many entries as the input has comma-separated
    pairs, every key trimmed and every value a number (possibly NaN). *)
Theorem weights_object_is_well_formed (evs : list Event)
    (backend : string -> JsValue -> Exn + JsValue) :
  let input := publicWeightsInput (run_events evs initial_state) in
  exists body weights,
    requests_after evs backend = [(simulate_url, body)]
    /\ field "public_weights" body = JObject weights
    /\ NoDup (map fst weights)
    /\ List.length weights <= List.length (split "," input)
    /\ Forall (fun kv => trim (fst kv) = fst kv /\ is_number (snd kv) = true)
              weights.
Proof.
  cbv zeta.
  exists (sent_body (run_events evs initial_state)),
         (weights_of_input (publicWeightsInput (run_events evs initial_state))).
  split; [apply requests_after_eq|]. split; [reflexivity|].
  destruct (weights_of_pairs_well_formed
              (split "," (publicWeightsInput (run_events evs initial_state))) [])
    as (H1 & H2 & H3); [constructor|constructor|].
  unfold weights_of_input. repeat split; try assumption.
  rewrite Nat.add_0_r in H3. exact H3.
Qed.

(** ** [parseFloat] and [parseInt] at the edges *)

Lemma parseFloat_blank (s : string) :
  trimStart s = EmptyString -> parseFloat s = NaN.
Proof. intro H. unfold parseFloat. rewrite H. reflexivity. Qed.

(** X15: with the initial-capital input empty or all white space, the
    request carries [initial_capital = NaN]. *)
Theorem blank_capital_is_sent_as_NaN (evs : list Event)
    (backend : string -> JsValue -> Exn + JsValue)
    (Hblank : trimStart (initialCapital (run_events evs initial_state))
              = EmptyString) :
  exists body,
    requests_after evs backend = [(simulate_url, body)]
    /\ field "initial_capital" body = JNumber NaN.
Proof.
  eexists. split; [apply requests_after_eq|].
  unfold sent_body, request_body. cbn [field get lookup String.eqb Ascii.eqb Bool.eqb].
  now rewrite (parseFloat_blank _ Hblank).
Qed.

Lemma blank_capital_witness :
  exists body,
    requests_after [ChangeInitialCapital "  "] backend_up = [(simulate_url, body)]
    /\ field "initial_capital" body = JNumber NaN.
Proof.
  exact (blank_capital_is_sent_as_NaN [ChangeInitialCapital "  "] backend_up
           eq_refl).
Defined.

Lemma trimStart_length (s : string) :
  String.length (trimStart s) <= String.length s.
Proof.
  induction s as [|c s IH]; cbn [trimStart String.length]; [lia|].
  destruct (is_space c); cbn [String.length]; lia.
Qed.

Lemma read_sign_length (s : string) :
  String.length (snd (read_sign s)) <= String.length s.
Proof.
  destruct s as [|c s]; [cbn; lia|].
  destruct c as [[] [] [] [] [] [] [] []]; cbn; lia.
Qed.

Lemma digit_range (c : ascii) (d : Z) :
  digit c = Some d -> (0 <= d < 10)%Z.
Proof.
  unfold digit.
  destruct (Nat.leb_spec 48 (nat_of_ascii c)); cbn [andb]; [|discriminate].
  destruct (Nat.leb_spec (nat_of_ascii c) 57); [|discriminate].
  intros [= <-]. lia.
Qed.

Lemma hex_digit_range (c : ascii) (d : Z) :
  hex_digit c = Some d -> (0 <= d < 16)%Z.
Proof.
  unfold hex_digit.
  destruct (Nat.leb_spec 48 (nat_of_ascii c)),
           (Nat.leb_spec (nat_of_ascii c) 57); cbn [andb];
    try (intros [= <-]; lia);
    destruct (Nat.leb_spec 97 (nat_of_ascii c)),
             (Nat.leb_spec (nat_of_ascii c) 102); cbn [andb];
    try (intros [= <-]; lia);
    destruct (Nat.leb_spec 65 (nat_of_ascii c)),
             (Nat.leb_spec (nat_of_ascii c) 70); cbn [andb];
    try (intros [= <-]; lia); discriminate.
Qed.

Lemma span_digits_bound (dig : ascii -> option Z) (radix : Z)
    (Hdig : forall c d, dig c = Some d -> (0 <= d < radix)%Z) (s : string) :
  List.length (fst (span_digits dig s)) <= String.length s
  /\ Forall (fun d => 0 <= d < radix)%Z (fst (span_digits dig s)).
Proof.
  induction s as [|c s [IHlen IHall]]; cbn [span_digits].
  - split; [cbn; lia|constructor].
  - destruct (dig c) as [d|] eqn:Hc.
    + destruct (span_digits dig s) as [ds rest]. cbn [fst List.length String.length] in *.
      split; [lia|]. constructor; [exact (Hdig c d Hc)|exact IHall].
    + cbn. split; [lia|constructor].
Qed.

Lemma fold_digits_bound (radix : Z) (ds : list Z) :
  (0 < radix)%Z -> Forall (fun d => 0 <= d < radix)%Z ds ->
  forall acc : Z,
    (0 <= acc)%Z ->
    (0 <= fold_left (fun a d => a * radix + d) ds acc
     < (acc + 1) * radix ^ Z.of_nat (List.length ds))%Z.
Proof.
  intros Hradix Hall. induction Hall as [|d ds Hd _ IH]; intros acc Hacc.
  - cbn. lia.
  - cbn [fold_left List.length]. rewrite Nat2Z.inj_succ, Z.pow_succ_r by lia.
    specialize (IH (acc * radix + d)%Z ltac:(nia)).
    assert (Hpow : (0 < radix ^ Z.of_nat (List.length ds))%Z)
      by (apply Z.pow_pos_nonneg; lia).
    nia.
Qed.

Lemma digits_value_bound (radix : Z) (ds : list Z) (n : nat) :
  (0 < radix)%Z -> Forall (fun d => 0 <= d < radix)%Z ds ->
  List.length ds <= n ->
  (0 <= digits_value radix ds < radix ^ Z.of_nat n)%Z.
Proof.
  intros Hradix Hall Hlen. unfold digits_value.
  pose proof (fold_digits_bound radix ds Hradix Hall 0%Z ltac:(lia)) as H.
  assert (Hmono : (radix ^ Z.of_nat (List.length ds) <= radix ^ Z.of_nat n)%Z)
    by (apply Z.pow_le_mono_r; lia).
  lia.
Qed.

(** The radix [parseInt] settles on: 16 with the two characters of the
    prefix dropped, or 10 with nothing dropped. *)
Lemma parseInt_radix (body : string) :
  let p := match body with
           | String "0" (String c r) =>
               if Ascii.eqb c "x" || Ascii.eqb c "X" then (16%Z, r) else (10%Z, body)
           | _ => (10%Z, body)
           end in
  (fst p = 10%Z /\ snd p = body)
  \/ (fst p = 16%Z /\ String.length (snd p) + 2 <= String.length body).
Proof.
  cbv zeta. destruct body as [|a rest]; [now left|].
  destruct a as [[] [] [] [] [] [] [] []]; try (now left).
  destruct rest as [|c r]; [now left|].
  destruct (Ascii.eqb c "x" || Ascii.eqb c "X"); [right|now left].
  cbn. split; [reflexivity|lia].
Qed.

(** A string of at most 15 characters is read by [parseInt] as [NaN] or
    as an integer below 2^53 in magnitude. *)
Lemma parseInt_short (s : string) :
  String.length s <= 15 -> safe_integer_or_NaN (JNumber (parseInt s)).
Proof.
  intro Hs. unfold parseInt, safe_integer_or_NaN.
  pose proof (trimStart_length s) as Htrim.
  pose proof (read_sign_length (trimStart s)) as Hsign.
  destruct (read_sign (trimStart s)) as [neg body]. cbn [snd] in Hsign.
  pose proof (parseInt_radix body) as Hradix. cbv zeta in Hradix.
  match type of Hradix with
  | (fst ?p = _ /\ _) \/ _ => destruct p as [radix body']
  end.
  cbn [fst snd] in Hradix.
  assert (Hds : exists n : nat,
             (0 <= digits_value radix
                     (fst (span_digits (if (radix =? 16)%Z then hex_digit else digit)
                                       body'))
              < 2 ^ 53)%Z).
  { exists 0.
    destruct Hradix as [[-> ->] | [-> Hlen]]; cbn [Z.eqb Pos.eqb].
    - destruct (span_digits_bound digit 10 digit_range body) as [Hl Hall].
      pose proof (digits_value_bound 10 _ 15 ltac:(lia) Hall ltac:(lia)) as H.
      change (10 ^ Z.of_nat 15)%Z with 1000000000000000%Z in H.
      change (2 ^ 53)%Z with 9007199254740992%Z. lia.
    - destruct (span_digits_bound hex_digit 16 hex_digit_range body') as [Hl Hall].
      pose proof (digits_value_bound 16 _ 13 ltac:(lia) Hall ltac:(lia)) as H.
      change (16 ^ Z.of_nat 13)%Z with 4503599627370496%Z in H.
      change (2 ^ 53)%Z with 9007199254740992%Z. lia. }
  destruct Hds as [_ Hbound].
  destruct (fst (span_digits _ body')) as [|d ds]; [now left|].
  right. unfold of_Z.
  destruct neg; eexists; (split; [|reflexivity]); lia.
Qed.

Lemma step_start_month_short (st : AppState) (ev : Event) :
  match ev with
  | ChangePrivateStartMonth v => String.length v <= 15
  | _ => True
  end ->
  String.length (privateStartMonth st) <= 15 ->
  String.length (privateStartMonth (step st ev)) <= 15.
Proof.
  intros Hev Hst.
  destruct ev as [v|file|v|v|v| |idx|backend]; cbn [step]; try exact Hst.
  - destruct file; exact Hst.
  - exact Hev.
  - unfold click_add. destruct (_ && _); [cbn; lia|exact Hst].
  - destruct (loading st); [exact Hst|].
    destruct (run_simulation_inputs backend st) as (_ & _ & _ & _ & -> & _).
    exact Hst.
Qed.

Lemma run_events_start_month_short (evs : list Event) :
  start_months_short evs ->
  forall st,
    String.length (privateStartMonth st) <= 15 ->
    String.length (privateStartMonth (run_events evs st)) <= 15.
Proof.
  unfold start_months_short, run_events.
  induction 1 as [|ev evs Hev _ IH]; intros st Hst; cbn [fold_left].
  - exact Hst.
  - apply IH. now apply step_start_month_short.
Qed.

Lemma posted_body_unique (url : string) (a b : JsValue) :
  [(url, a)] = [(url, b)] -> a = b.
Proof. now intros [= ->]. Qed.

(** X16: when every string typed into the start-month input has at most
    15 characters, the [start_month] of every entry of
    [private_commitments] is [NaN] or an integer below 2^53 in magnitude
    (where binary64 is exact): [parseInt] reads the digits before a
    decimal point or an exponent and no more. *)
Theorem start_month_is_integer_or_NaN (evs : list Event)
    (backend : string -> JsValue -> Exn + JsValue)
    (Hshort : start_months_short evs) :
  exists body entries,
    requests_after evs backend = [(simulate_url, body)]
    /\ field "private_commitments" body = JArray entries
    /\ Forall (fun entry => safe_integer_or_NaN (field "start_month" entry))
              entries.
Proof.
  exists (sent_body (run_events evs initial_state)),
         (privateInvestments (run_events evs initial_state)).
  split; [apply requests_after_eq|]. split; [reflexivity|].
  eapply Forall_impl; [|apply entries_added_by_click].
  intros entry (pre & post & Hevs & _ & _ & ->). cbn.
  apply parseInt_short, run_events_start_month_short; [|cbn; lia].
  unfold start_months_short in *. rewrite Hevs in Hshort.
  now apply Forall_app in Hshort.
Qed.

Lemma start_month_witness :
  exists body,
    requests_after
      [ ChangePrivateCommitment "5000"; ChangePrivateStartMonth "3.7"; ClickAdd;
        ChangePrivateCommitment "7000"; ChangePrivateStartMonth "1e3"; ClickAdd;
        ChangePrivateCommitment "9000"; ChangePrivateStartMonth "."; ClickAdd ]
      backend_up
    = [(simulate_url, body)]
    /\ map (field "start_month")
           match field "private_commitments" body with
           | JArray entries => entries
           | _ => []
           end
       = [JNumber (Num (3 # 1)); JNumber (Num (1 # 1)); JNumber NaN]
    /\ Forall (fun entry => safe_integer_or_NaN (field "start_month" entry))
              match field "private_commitments" body with
              | JArray entries => entries
              | _ => []
              end.
Proof.
  set (evs := [ ChangePrivateCommitment "5000"; ChangePrivateStartMonth "3.7"; ClickAdd;
                ChangePrivateCommitment "7000"; ChangePrivateStartMonth "1e3"; ClickAdd;
                ChangePrivateCommitment "9000"; ChangePrivateStartMonth "."; ClickAdd ]).
  assert (Hshort : start_months_short evs).
  { unfold start_months_short, evs. repeat constructor. }
  destruct (start_month_is_integer_or_NaN evs backend_up Hshort)
    as (body & entries & Hreq & Hfield & Hall).
  exists body. split; [exact Hreq|]. split; [|rewrite Hfield; exact Hall].
  rewrite requests_after_eq in Hreq.
  rewrite <- (posted_body_unique _ _ _ Hreq). reflexivity.
Defined.

(** ** Decimal numerals, read back *)

Lemma span_digits_cons (dig : ascii -> option Z) (c : ascii) (s : string) (d : Z) :
  dig c = Some d ->
  span_digits dig (String c s)
  = (d :: fst (span_digits dig s), snd (span_digits dig s)).
Proof.
  intro H. cbn [span_digits]. rewrite H. now destruct (span_digits dig s).
Qed.

Ltac expose_first_digit :=
  match goal with
  | |- context [span_digits digit (String ?c ?s)] =>
      let r := eval vm_compute in (digit c) in
      match r with
      | Some ?v => rewrite (span_digits_cons digit c s v eq_refl) in *
      end
  end.

Ltac eval_is_space :=
  repeat match goal with
         | |- context [is_space ?c] =>
             let r := eval vm_compute in (is_space c) in
             change (is_space c) with r
         end.

(** The digits of a numeral are all read, and their value is the
    number the numeral denotes. *)
Lemma span_digits_decimal (d : Decimal.uint) :
  snd (span_digits digit (DecimalString.NilEmpty.string_of_uint d)) = EmptyString
  /\ forall acc : nat,
       fold_left (fun a x => a * 10 + x)%Z
                 (fst (span_digits digit (DecimalString.NilEmpty.string_of_uint d)))
                 (Z.of_nat acc)
       = Z.of_nat (Nat.of_uint_acc d acc).
Proof.
  induction d as [|d [IHs IHf]|d [IHs IHf]|d [IHs IHf]|d [IHs IHf]|d [IHs IHf]
                  |d [IHs IHf]|d [IHs IHf]|d [IHs IHf]|d [IHs IHf]|d [IHs IHf]];
    cbn [DecimalString.NilEmpty.string_of_uint];
    [split; [reflexivity|intro acc; reflexivity]|..];
    (expose_first_digit; cbn [fst snd];
     split; [exact IHs|];
     intro acc; cbn [fold_left Nat.of_uint_acc];
     rewrite Nat.tail_mul_spec, <- IHf; f_equal; lia).
Qed.

Lemma to_uint_not_nil (n : nat) : Nat.to_uint n <> Decimal.Nil.
Proof.
  rewrite <- (DecimalNat.Unsigned.of_to n) at 1.
  rewrite DecimalNat.Unsigned.to_of. apply DecimalFacts.unorm_nonnil.
Qed.

Lemma decimal_not_empty (n : nat) : decimal n <> EmptyString.
Proof.
  unfold decimal. pose proof (to_uint_not_nil n) as Hnil.
  destruct (Nat.to_uint n); [contradiction|..]; discriminate.
Qed.

Lemma decimal_digits_value (n : nat) :
  snd (span_digits digit (decimal n)) = EmptyString
  /\ digits_value 10 (fst (span_digits digit (decimal n))) = Z.of_nat n.
Proof.
  unfold decimal, digits_value.
  destruct (span_digits_decimal (Nat.to_uint n)) as [Hrest Hval].
  split; [exact Hrest|].
  specialize (Hval 0). cbn [Z.of_nat] in Hval. rewrite Hval.
  f_equal. apply DecimalNat.Unsigned.of_to.
Qed.

Lemma parseInt_decimal (n : nat) : parseInt (decimal n) = of_Z (Z.of_nat n).
Proof.
  destruct (decimal_digits_value n) as [_ Hval].
  pose proof (to_uint_not_nil n) as Hnil.
  unfold decimal in *.
  destruct (Nat.to_uint n) as [|d|d|d|d|d|d|d|d|d|d]; [contradiction|..].
  1: destruct d as [|d|d|d|d|d|d|d|d|d|d].
  all: unfold parseInt; cbn [DecimalString.NilEmpty.string_of_uint trimStart] in *;
       eval_is_space; cbn -[span_digits digits_value Z.of_nat];
       expose_first_digit; cbn [fst] in *; now rewrite Hval.
Qed.

Lemma parseFloat_decimal (n : nat) : parseFloat (decimal n) = of_Z (Z.of_nat n).
Proof.
  destruct (decimal_digits_value n) as [Hrest Hval].
  pose proof (to_uint_not_nil n) as Hnil.
  unfold decimal in *.
  destruct (Nat.to_uint n) as [|d|d|d|d|d|d|d|d|d|d]; [contradiction|..].
  all: unfold parseFloat; cbn [DecimalString.NilEmpty.string_of_uint trimStart] in *;
       eval_is_space; cbn -[span_digits digits_value Z.of_nat scale10];
       expose_first_digit; cbn [fst snd] in *; rewrite Hrest;
       cbn -[span_digits digits_value Z.of_nat scale10];
       rewrite app_nil_r, Hval; unfold scale10, of_Z;
       cbn [Z.leb Z.compare Z.sub Z.opp Z.add Z.of_nat Z.pow Z.pow_pos Pos.iter];
       now rewrite ?Z.mul_1_r.
Qed.

(** X17: the decimal numeral of a natural number up to 2^53 (where
    binary64 holds every integer exactly) is read back as that number by
    [parseInt] and by [parseFloat]; so with the numerals of [c] and [m]
    in the two inputs, Add appends the entry
    [{commitment: c, start_month: m}]. *)
Theorem typed_numerals_are_stored (st : AppState) (c m : nat)
    (Hc : (Z.of_nat c <= 9007199254740992)%Z)
    (Hm : (Z.of_nat m <= 9007199254740992)%Z) :
  parseInt (decimal m) = of_Z (Z.of_nat m)
  /\ parseFloat (decimal c) = of_Z (Z.of_nat c)
  /\ privateInvestments
       (click_add (setPrivateStartMonth (decimal m)
                     (setPrivateCommitment (decimal c) st)))
     = privateInvestments st
       ++ [JObject [ ("commitment", JNumber (of_Z (Z.of_nat c)));
                     ("start_month", JNumber (of_Z (Z.of_nat m))) ]].
Proof.
  split; [apply parseInt_decimal|]. split; [apply parseFloat_decimal|].
  unfold click_add.
  rewrite click_add_guard
    by (cbn [privateCommitment privateStartMonth setPrivateStartMonth
             setPrivateCommitment]; apply decimal_not_empty).
  cbn [privateInvestments privateCommitment privateStartMonth
       setPrivateInvestments setPrivateStartMonth setPrivateCommitment].
  unfold newInvestment. now rewrite parseFloat_decimal, parseInt_decimal.
Qed.

Lemma typed_numerals_witness :
  decimal 5000 = "5000" /\ decimal 12 = "12"
  /\ privateInvestments
       (click_add (setPrivateStartMonth "12"
                     (setPrivateCommitment "5000" initial_state)))
     = [JObject [ ("commitment", JNumber (Num (5000 # 1)));
                  ("start_month", JNumber (Num (12 # 1))) ]].
Proof.
  split; [reflexivity|]. split; [reflexivity|].
  assert (Hc : (Z.of_nat 5000 <= 9007199254740992)%Z) by (vm_compute; discriminate).
  assert (Hm : (Z.of_nat 12 <= 9007199254740992)%Z) by (vm_compute; discriminate).
  exact (proj2 (proj2 (typed_numerals_are_stored initial_state 5000 12 Hc Hm))).
Defined.

(** ** The uploaded rows, row by row *)

(** X18: an upload whose rows are all dropped stores an empty array,
    and the request then carries that empty array: an array is truthy, so
    the default returns are not used. *)
Theorem upload_without_clean_rows_sends_empty_array (evs : list Event)
    (f : CsvFile) (backend : string -> JsValue -> Exn + JsValue)
    (Hdirty : Forall (fun row => row_is_clean row = false) (parsed_data f)) :
  exists body,
    requests_after (evs ++ [ChangeCsvFile (Some f)]) backend
    = [(simulate_url, body)]
    /\ field "returns_data" body = JArray [].
Proof.
  eexists. split; [apply requests_after_eq|].
  rewrite run_events_app. cbn [run_events fold_left step handleCSVUpload].
  unfold sent_body, request_body.
  cbn [field get lookup String.eqb Ascii.eqb Bool.eqb returnsData setReturnsData].
  assert (Hnone : filter row_is_clean (parsed_data f) = []).
  { induction Hdirty as [|row rows Hrow _ IH]; cbn [filter]; [reflexivity|].
    now rewrite Hrow. }
  rewrite Hnone. reflexivity.
Qed.

Lemma upload_without_clean_rows_witness :
  exists body,
    requests_after
      ([] ++ [ChangeCsvFile
                (Some (mkCsvFile "gaps.csv"
                         [ [("Date", JString "2020-01"); ("SPY", JNull)];
                           [("Date", JNull)] ]))])
      backend_up
    = [(simulate_url, body)]
    /\ field "returns_data" body = JArray [].
Proof.
  apply (upload_without_clean_rows_sends_empty_array []).
  repeat constructor.
Defined.




Lemma omit_keeps_clean (k : string) (row : Fields) :
  row_is_clean row = true -> row_is_clean (omit k row) = true.
Proof.
  unfold row_is_clean, Object_values, omit.
  induction row as [|[k' v'] row IH]; cbn; [reflexivity|].
  intro H. apply andb_true_iff in H. destruct H as [Hv Hrow].
  destruct (String.eqb k' k); cbn; [now apply IH|].
  rewrite Hv. now apply IH.
Qed.

(** X20: what an upload stores never holds a missing value and never
    has more rows than the file: every stored row has all its values
    different from [null] and from the empty string. *)
Theorem stored_rows_have_no_missing_value (f : CsvFile) (st : AppState) :
  exists rows,
    returnsData (handleCSVUpload (Some f) st) = JArray (map JObject rows)
    /\ List.length rows <= List.length (parsed_data f)
    /\ Forall (fun row =>
                 forall k v, In (k, v) row ->
                             v <> JNull /\ v <> JString EmptyString) rows.
Proof.
  exists (stored_rows f). split; [reflexivity|]. unfold stored_rows. split.
  - rewrite length_map. apply filter_length_le.
  - apply Forall_map, Forall_forall. intros row Hin.
    apply filter_In in Hin. destruct Hin as [_ Hclean].
    apply (row_is_clean_complete (omit "Date" row)).
    now apply omit_keeps_clean.
Qed.

Lemma omit_absent_key (k : string) (row : Fields) :
  has_key k row = false -> omit k row = row.
Proof.
  unfold has_key, omit.
  induction row as [|[k' v'] row IH]; cbn; [reflexivity|].
  destruct (String.eqb k' k); cbn; [discriminate|].
  intro H. now rewrite IH.
Qed.

(** X21: a file whose rows are all complete and have no Date column is
    stored as it was parsed, row for row. *)
Theorem complete_rows_without_date_are_stored_unchanged (f : CsvFile)
    (st : AppState)
    (Hrows : Forall (fun row => row_is_clean row = true
                                /\ has_key "Date" row = false) (parsed_data f)) :
  returnsData (handleCSVUpload (Some f) st)
  = JArray (map JObject (parsed_data f)).
Proof.
  cbn [handleCSVUpload returnsData setReturnsData]. do 2 f_equal.
  induction Hrows as [|row rows [Hclean Hdate] _ IH]; cbn [filter map];
    [reflexivity|].
  rewrite Hclean. cbn [map]. now rewrite IH, (omit_absent_key _ _ Hdate).
Qed.

Lemma complete_rows_without_date_witness :
  returnsData
    (handleCSVUpload
       (Some (mkCsvFile "plain.csv"
                [ [("SPY", JNumber (Num (1 # 100))); ("TLT", JNumber (Num (0 # 1)))];
                  [("SPY", JNumber (Num (2 # 100))); ("TLT", JBool false)] ]))
       initial_state)
  = JArray [ JObject [("SPY", JNumber (Num (1 # 100))); ("TLT", JNumber (Num (0 # 1)))];
             JObject [("SPY", JNumber (Num (2 # 100))); ("TLT", JBool false)] ].
Proof.
  change (JArray [ JObject [("SPY", JNumber (Num (1 # 100))); ("TLT", JNumber (Num (0 # 1)))];
                   JObject [("SPY", JNumber (Num (2 # 100))); ("TLT", JBool false)] ])
    with (JArray (map JObject
                      [ [("SPY", JNumber (Num (1 # 100))); ("TLT", JNumber (Num (0 # 1)))];
                        [("SPY", JNumber (Num (2 # 100))); ("TLT", JBool false)] ])).
  apply (complete_rows_without_date_are_stored_unchanged
           (mkCsvFile "plain.csv"
              [ [("SPY", JNumber (Num (1 # 100))); ("TLT", JNumber (Num (0 # 1)))];
                [("SPY", JNumber (Num (2 # 100))); ("TLT", JBool false)] ])
           initial_state).
  repeat constructor.
Defined.

(** ** The performance block *)

Lemma member_nullish (k : string) (v : JsValue) :
  match member k v with
  | inl _ => nullish v = true
  | inr x => nullish v = false /\ x = read k v
  end.
Proof.
  unfold read. destruct v; cbn; try (split; reflexivity); reflexivity.
Qed.

Lemma trace_outcome (res : JsValue) (sleeve name color : string) (width : nat) :
  let total := read "total" (read "portfolio" res) in
  match trace res sleeve name color width with
  | inl _ =>
      nullish (read "portfolio" res) = true
      \/ nullish total = true
      \/ exists e, Array_keys (read "length" total) = inl e
  | inr t =>
      nullish (read "portfolio" res) = false
      /\ nullish total = false
      /\ Array_keys (read "length" total) = inr (trace_x t)
      /\ trace_y t = read sleeve (read "portfolio" res)
      /\ trace_name t = name /\ trace_color t = color /\ trace_width t = width
  end.
Proof.
  cbv zeta. unfold trace.
  pose proof (member_nullish "portfolio" res) as Hp.
  destruct (member "portfolio" res) as [e|portfolio].
  - (* res itself is nullish: every read of it is undefined *)
    destruct res; try discriminate Hp; cbn; now left.
  - destruct Hp as [Hres ->]. cbn [bindR].
    pose proof (member_nullish "total" (read "portfolio" res)) as Ht.
    destruct (member "total" (read "portfolio" res)) as [e|total].
    + cbn [bindR]. now left.
    + destruct Ht as [Hport ->]. cbn [bindR].
      pose proof (member_nullish "length" (read "total" (read "portfolio" res)))
        as Hl.
      destruct (member "length" (read "total" (read "portfolio" res)))
        as [e|len].
      * cbn [bindR]. right. now left.
      * destruct Hl as [Htot ->]. cbn [bindR].
        destruct (Array_keys _) as [e|x] eqn:Hkeys.
        -- cbn [bindR]. right. right. now exists e.
        -- cbn [bindR].
           pose proof (member_nullish sleeve (read "portfolio" res)) as Hs.
           destruct (member sleeve (read "portfolio" res)) as [e|y].
           ++ congruence.
           ++ destruct Hs as [_ ->]. cbn. repeat split; assumption.
Qed.

(** For a truthy [result], the model's render throws exactly in these
    cases. *)
Lemma render_performance_throws_iff (res : JsValue)
    (Htruthy : truthy res = true) :
  let total := read "total" (read "portfolio" res) in
  (exists e, render_performance res = inl e)
  <-> (nullish (read "metrics" res) = true
       \/ nullish (read "portfolio" res) = true
       \/ nullish total = true
       \/ (exists e, Array_keys (read "length" total) = inl e)
       \/ (exists items,
              Object_entries (read "metrics" res) = inr items
              /\ forallb valid_child (Object_values items) = false)).
Proof.
  cbv zeta. unfold render_performance. rewrite Htruthy.
  pose proof (member_nullish "metrics" res) as Hm.
  destruct (member "metrics" res) as [e|metrics].
  { destruct res; discriminate. }
  destruct Hm as [_ ->]. cbn [bindR].
  assert (Hentries :
            match Object_entries (read "metrics" res) with
            | inl _ => nullish (read "metrics" res) = true
            | inr _ => nullish (read "metrics" res) = false
            end).
  { destruct (read "metrics" res); reflexivity. }
  destruct (Object_entries (read "metrics" res)) as [e|items]; cbn [bindR].
  { split; [intros _; now left|intros _; now exists e]. }
  pose proof (trace_outcome res "public" "Public" "#1f77b4" 2) as H1.
  pose proof (trace_outcome res "private" "Private" "#ff7f0e" 2) as H2.
  pose proof (trace_outcome res "cash" "Cash" "#2ca02c" 2) as H3.
  pose proof (trace_outcome res "total" "Total Portfolio" "#d62728" 4) as H4.
  cbv zeta in H1, H2, H3, H4.
  destruct (trace res "public" _ _ _) as [e1|t1]; cbn [bindR].
  { split; [intros _; right|intros _; now exists e1].
    destruct H1 as [H|[H|H]]; [now left|right; now left|right; right; now left]. }
  destruct H1 as (Hp & Ht & Hk & _).
  destruct (trace res "private" _ _ _) as [e2|t2]; cbn [bindR].
  { destruct H2 as [H|[H|[e H]]]; congruence. }
  destruct (trace res "cash" _ _ _) as [e3|t3]; cbn [bindR].
  { destruct H3 as [H|[H|[e H]]]; congruence. }
  destruct (trace res "total" _ _ _) as [e4|t4]; cbn [bindR].
  { destruct H4 as [H|[H|[e H]]]; congruence. }
  destruct (forallb valid_child (Object_values items)) eqn:Hvalid.
  - split.
    + intros [e He]. discriminate He.
    + intros [H|[H|[H|[[e H]|(items' & [= <-] & H)]]]]; congruence.
  - split.
    + intros _. do 4 right. now exists items.
    + intros _. now exists RenderInvalidChild.
Qed.

(** X22: for a truthy [result], the performance block throws whenever
    [result.metrics], [result.portfolio] or [result.portfolio.total] is
    [null] or [undefined], or the length of the total series is a number
    that is no valid array length, or some metric value is an object,
    which React refuses as a child. *)
Theorem render_throws_when (res : JsValue)
    (Htruthy : truthy res = true)
    (Hbad : nullish (read "metrics" res) = true
            \/ nullish (read "portfolio" res) = true
            \/ nullish (read "total" (read "portfolio" res)) = true
            \/ (exists e,
                   Array_keys (read "length" (read "total" (read "portfolio" res)))
                   = inl e)
            \/ (exists items,
                   Object_entries (read "metrics" res) = inr items
                   /\ forallb valid_child (Object_values items) = false)) :
  exists e, render_performance res = inl e.
Proof. exact (proj2 (render_performance_throws_iff res Htruthy) Hbad). Qed.

(** A result without a portfolio; a result whose total has length 2.5;
    and a well-shaped result with an object among its metrics. *)
Lemma render_throws_witness :
  (exists e,
      render_performance
        (JObject [("metrics", JObject [("CAGR", JNumber (Num (7 # 100)))])])
      = inl e)
  /\ (exists e,
         render_performance
           (JObject [ ("metrics", JObject []);
                      ("portfolio",
                       JObject [("total",
                                 JObject [("length", JNumber (Num (5 # 2)))])]) ])
         = inl e)
  /\ (exists e,
         render_performance
           (good_result [ ("CAGR", JNumber (Num (7 # 100)));
                          ("bands", JObject [("p5", JNumber (Num (1 # 100)))]) ]
                        [JNumber (Num (1 # 1))] [JNumber (Num 0)] [JNumber (Num 0)]
                        [JNumber (Num (1 # 1))])
         = inl e).
Proof.
  split; [|split].
  - apply render_throws_when; [reflexivity|].
    right. left. reflexivity.
  - apply render_throws_when; [reflexivity|].
    do 3 right. left. eexists. reflexivity.
  - apply render_throws_when; [reflexivity|].
    do 4 right. eexists. split; reflexivity.
Defined.

Lemma Array_keys_length (n : nat) :
  (Z.of_nat n <= 4294967295)%Z ->
  Array_keys (JNumber (of_Z (Z.of_nat n))) = inr (seq 0 n).
Proof.
  intro Hn. unfold Array_keys, of_Z, inject_Z. cbn [Qnum Qden].
  rewrite Z.mod_1_r, Z.div_1_r.
  destruct (Z.leb_spec 0 (Z.of_nat n)); [|lia].
  destruct (Z.leb_spec (Z.of_nat n) 4294967295); [|lia].
  cbn [Z.eqb andb]. now rewrite Nat2Z.id.
Qed.

(** X23: for a result with a metrics object whose values React accepts
    as children (none is an object) and a portfolio of four arrays, the
    block lists the metrics in their order and charts four traces,
    Public, Private, Cash and Total Portfolio in this order; each trace
    has its own series as [y], and all four have as [x] the indices of
    the total series, whatever the lengths of the other three. *)
Theorem render_of_good_result (metrics : Fields) (pub prv csh tot : list JsValue)
    (Hvalid : forallb valid_child (Object_values metrics) = true)
    (Hlen : (Z.of_nat (List.length tot) <= 4294967295)%Z) :
  render_performance (good_result metrics pub prv csh tot)
  = inr (Block metrics
           [ mkTrace (seq 0 (List.length tot)) (JArray pub) "Public" "#1f77b4" 2;
             mkTrace (seq 0 (List.length tot)) (JArray prv) "Private" "#ff7f0e" 2;
             mkTrace (seq 0 (List.length tot)) (JArray csh) "Cash" "#2ca02c" 2;
             mkTrace (seq 0 (List.length tot)) (JArray tot) "Total Portfolio"
                     "#d62728" 4 ]).
Proof.
  unfold render_performance, good_result, trace.
  cbn [truthy member get lookup String.eqb Ascii.eqb Bool.eqb bindR Object_entries].
  rewrite (Array_keys_length _ Hlen). cbn [bindR]. now rewrite Hvalid.
Qed.

(** Series of lengths 3, 1, 0 and 2: every trace gets the two indices
    of the total series. *)
Lemma render_of_good_result_witness :
  render_performance
    (good_result [ ("CAGR", JNumber (Num (7 # 100)));
                   ("Sharpe", JNull);
                   ("notes", JArray [JString "ok"; JNumber (Num (1 # 1))]) ]
                 [JNumber (Num (1 # 1)); JNumber (Num (2 # 1)); JNumber (Num (3 # 1))]
                 [JNumber (Num (4 # 1))]
                 []
                 [JNumber (Num (5 # 1)); JNumber (Num (6 # 1))])
  = inr (Block [ ("CAGR", JNumber (Num (7 # 100)));
                 ("Sharpe", JNull);
                 ("notes", JArray [JString "ok"; JNumber (Num (1 # 1))]) ]
           [ mkTrace [0; 1]
                     (JArray [JNumber (Num (1 # 1)); JNumber (Num (2 # 1));
                              JNumber (Num (3 # 1))])
                     "Public" "#1f77b4" 2;
             mkTrace [0; 1] (JArray [JNumber (Num (4 # 1))]) "Private" "#ff7f0e" 2;
             mkTrace [0; 1] (JArray []) "Cash" "#2ca02c" 2;
             mkTrace [0; 1] (JArray [JNumber (Num (5 # 1)); JNumber (Num (6 # 1))])
                     "Total Portfolio" "#d62728" 4 ]).
Proof.
  apply (render_of_good_result
           [ ("CAGR", JNumber (Num (7 # 100)));
             ("Sharpe", JNull);
             ("notes", JArray [JString "ok"; JNumber (Num (1 # 1))]) ]
           [JNumber (Num (1 # 1)); JNumber (Num (2 # 1)); JNumber (Num (3 # 1))]
           [JNumber (Num (4 # 1))] []
           [JNumber (Num (5 # 1)); JNumber (Num (6 # 1))]).
  - reflexivity.
  - cbn. lia.
Defined.
